(** * golang-chat: the client session core of [gui.go]

    A shallow embedding of the chat client's session logic: the connection
    routine and its retry loop, the channel directory, the handler of
    inbound messages and the settings file, followed by the properties the
    specification states about them.

    Conventions of the embedding.
    - Go's [int64] identifiers and [int] port are [Z]; the code only
      compares and copies them, so no wrap-around arises.
    - [time.Duration] is [Z], counted in nanoseconds as in Go.
    - A method on [*ChatApplication] is a computation in the monad [M]: it
      reads and updates the [World] (the application record and its
      environment: settings file, network) and yields the list of effects
      it performed, in order.
    - Console output ([log.Println], [fmt.Printf]) is not an effect of the
      model; dialogs, sleeps, dials, handler registrations, emits to the
      transport and widget refreshes are. *)

From Stdlib Require Import ZArith List String Ascii Bool Lia DecimalString.
Import ListNotations.
Open Scope string_scope.
Open Scope list_scope.
Open Scope Z_scope.

(** ** Data model *)

(** Modelled from the spec: the declarations of [User], [UserPublicInfo],
    [Channel], [SavedMessage] and [Message] are not in gui.go; the fields
    are those gui.go reads and the spec's data model lists. *)
Record User := mkUser { Id : Z; Username : string }.

Record UserPublicInfo := mkUserPublicInfo { PubId : Z; PubUsername : string }.

Record Channel := mkChannel { ChanId : Z; Title : string }.

Record SavedMessage := mkSavedMessage {
  UserData : UserPublicInfo;
  ChatId : Z;
  Text : string;
  Timestamp : Z
}.

Record HostData := mkHostData { Host : string; Port : Z }.

(** Payloads of the outbound events. *)
Inductive Payload :=
| LoginData (username passwordHash : string)
| Message (user : User) (chatId : Z) (text : string)
| MessagesRequest (chatId : Z) (user : User)
| ChannelsRequest (user : User).

Definition Duration := Z.
Definition Second : Duration := 1000000000.
Definition Minute : Duration := 60 * Second.

Definition DEFAULT_HOST : string := "localhost".
Definition DEFAULT_PORT : Z := 3811.

Definition GROUP_CHANNEL_TITLE : string := "MAIN".
Definition NOTES_CHANNEL_TITLE : string := "NOTES".

(** Modelled from the spec: the constant [GROUP_CHAT_ID] is declared
    outside gui.go; the spec reserves the group id "(constant, e.g. 0)" and
    [init] sets [CurrentChatId = 0 // main channel]. *)
Definition GROUP_CHAT_ID : Z := 0.

(** Modelled from the spec: [getChatType] is declared outside gui.go; a
    message is classified by [chatId] alone, group when it is the group id
    and private otherwise. *)
Definition getChatType (msg : SavedMessage) : string :=
  if ChatId msg =? GROUP_CHAT_ID then "group" else "private".

(** The radio group of the channel selector: the toolkit's widget, reduced
    to the two fields gui.go uses. *)
Record RadioGroup := mkRadioGroup { Options : list string; Selected : string }.

Record ChatApplication := mkChatApplication {
  MessagesList : list SavedMessage;
  (** the transport handle: the index of the dial that produced it *)
  Client : option nat;
  Connected : bool;
  CurrentUser : User;
  LoggedIn : bool;
  CurrentChatId : Z;
  ProfileInfo : string;
  Channels : list Channel;
  ChannelsRadioGroup : RadioGroup
}.

(** ** Environment and effects *)

(** What one call of [gosocketio.Dial] followed by the two lifecycle
    registrations of [connect] can yield. *)
Inductive DialOutcome :=
| DialFails (description : string)
| DialOk (onDisconnectionErr onConnectionErr : option string).

Record World := mkWorld {
  app : ChatApplication;
  (** content of settings.json; [None] when reading it fails *)
  settingsFile : option string;
  (** whether [ioutil.WriteFile] on settings.json succeeds *)
  settingsWritable : bool;
  (** outcome of the n-th dial, and the number of dials so far *)
  network : nat -> DialOutcome;
  dialed : nat
}.

Inductive Effect :=
| Sleep (d : Duration)
| Dial (host : string) (port : Z)
| On (event : string)
| Emit (event : string) (payload : Payload)
| ShowError (description : string)
| ShowInformation (title message : string)
| ShowLoginDialog (title : string)
| ShowRegisterDialog (title : string)
| GoStartReconnectionTrying
| GoConnect (host : string) (port : Z) (isReconnect : bool)
| ShowAndRun
| SetOnClosed
| RefreshMessages
| ScrollToTop
| RefreshChannels
| AppendLabel (text : string).

(** ** The monad of the methods *)

Definition M (A : Type) : Type := World -> A * World * list Effect.

Definition ret {A} (a : A) : M A := fun w => (a, w, []).

Definition bind {A B} (m : M A) (k : A -> M B) : M B :=
  fun w =>
    let '(a, w1, e1) := m w in
    let '(b, w2, e2) := k a w1 in
    (b, w2, e1 ++ e2).

Notation "x <- c1 ;; c2" := (bind c1 (fun x => c2))
  (at level 61, c1 at next level, right associativity).
Notation "c1 ;; c2" := (bind c1 (fun _ => c2))
  (at level 61, right associativity).

Definition getApp : M ChatApplication := fun w => (app w, w, []).

Definition modifyApp (f : ChatApplication -> ChatApplication) : M unit :=
  fun w => (tt, mkWorld (f (app w)) (settingsFile w) (settingsWritable w)
                        (network w) (dialed w), []).

Definition perform (e : Effect) : M unit := fun w => (tt, w, [e]).

Definition when (b : bool) (m : M unit) : M unit := if b then m else ret tt.

Definition result {A} (r : A * World * list Effect) : A := fst (fst r).
Definition world {A} (r : A * World * list Effect) : World := snd (fst r).
Definition effects {A} (r : A * World * list Effect) : list Effect := snd r.

(** Field updates of the application record. *)
Definition setMessagesList (l : list SavedMessage) (a : ChatApplication) : ChatApplication :=
  mkChatApplication l (Client a) (Connected a) (CurrentUser a) (LoggedIn a)
    (CurrentChatId a) (ProfileInfo a) (Channels a) (ChannelsRadioGroup a).
Definition setClient (c : option nat) (a : ChatApplication) : ChatApplication :=
  mkChatApplication (MessagesList a) c (Connected a) (CurrentUser a) (LoggedIn a)
    (CurrentChatId a) (ProfileInfo a) (Channels a) (ChannelsRadioGroup a).
Definition setConnected (b : bool) (a : ChatApplication) : ChatApplication :=
  mkChatApplication (MessagesList a) (Client a) b (CurrentUser a) (LoggedIn a)
    (CurrentChatId a) (ProfileInfo a) (Channels a) (ChannelsRadioGroup a).
Definition setCurrentUser (u : User) (a : ChatApplication) : ChatApplication :=
  mkChatApplication (MessagesList a) (Client a) (Connected a) u (LoggedIn a)
    (CurrentChatId a) (ProfileInfo a) (Channels a) (ChannelsRadioGroup a).
Definition setLoggedIn (b : bool) (a : ChatApplication) : ChatApplication :=
  mkChatApplication (MessagesList a) (Client a) (Connected a) (CurrentUser a) b
    (CurrentChatId a) (ProfileInfo a) (Channels a) (ChannelsRadioGroup a).
Definition setCurrentChatId (c : Z) (a : ChatApplication) : ChatApplication :=
  mkChatApplication (MessagesList a) (Client a) (Connected a) (CurrentUser a) (LoggedIn a)
    c (ProfileInfo a) (Channels a) (ChannelsRadioGroup a).
Definition setProfileInfo (s : string) (a : ChatApplication) : ChatApplication :=
  mkChatApplication (MessagesList a) (Client a) (Connected a) (CurrentUser a) (LoggedIn a)
    (CurrentChatId a) s (Channels a) (ChannelsRadioGroup a).
Definition setChannels (l : list Channel) (a : ChatApplication) : ChatApplication :=
  mkChatApplication (MessagesList a) (Client a) (Connected a) (CurrentUser a) (LoggedIn a)
    (CurrentChatId a) (ProfileInfo a) l (ChannelsRadioGroup a).
Definition setChannelsRadioGroup (r : RadioGroup) (a : ChatApplication) : ChatApplication :=
  mkChatApplication (MessagesList a) (Client a) (Connected a) (CurrentUser a) (LoggedIn a)
    (CurrentChatId a) (ProfileInfo a) (Channels a) r.

(** ** The message list and the notification sink *)

(** Modelled from the spec: [MessageList] is declared outside gui.go;
    [addMessage] appends to the displayed list, [clear] empties it and
    [setMessages] replaces it wholesale. *)
Definition addMessageToList (msg : SavedMessage) : M unit :=
  modifyApp (fun a => setMessagesList (MessagesList a ++ [msg]) a) ;;
  perform RefreshMessages.

Definition clearMessagesList : M unit :=
  modifyApp (setMessagesList []) ;;
  perform RefreshMessages.

Definition showError (description : string) : M unit :=
  perform (ShowError description).

(** ** Inbound messages *)

(** The handler gui.go binds to "/message". *)
Definition onMessage (msg : SavedMessage) : M unit :=
  chatApp <- getApp ;;
  let currentChatId := CurrentChatId chatApp in
  let currentUserId := Id (CurrentUser chatApp) in
  let chatType := getChatType msg in
  let isMessageFromMe := PubId (UserData msg) =? Id (CurrentUser chatApp) in
  let isMessageToMe := ChatId msg =? Id (CurrentUser chatApp) in
  let isNotesMessage := isMessageFromMe && isMessageToMe in
  when ((chatType =? "group")%string && (CurrentChatId chatApp =? GROUP_CHAT_ID))
       (addMessageToList msg) ;;
  when (chatType =? "private")%string
       (if isNotesMessage && (currentChatId =? currentUserId) then
          addMessageToList msg
        else if isMessageFromMe && (currentChatId =? ChatId msg) then
          addMessageToList msg
        else if isMessageToMe && (currentChatId =? PubId (UserData msg)) then
          addMessageToList msg
        else ret tt).

(** The same handler in the earlier revision of gui.go. *)
Definition onMessage_earlier (msg : SavedMessage) : M unit :=
  chatApp <- getApp ;;
  when (CurrentChatId chatApp =? ChatId msg) (addMessageToList msg).

(** The router as the specification words it: the five branches, in the
    stated order, over the viewer's id and the open channel. *)
Definition isVisible (m : SavedMessage) (s : ChatApplication) : bool :=
  let viewer := Id (CurrentUser s) in
  let fromMe := PubId (UserData m) =? viewer in
  let toMe := ChatId m =? viewer in
  if ChatId m =? GROUP_CHAT_ID then CurrentChatId s =? GROUP_CHAT_ID
  else if fromMe && toMe then CurrentChatId s =? viewer
  else if fromMe then CurrentChatId s =? ChatId m
  else if toMe then CurrentChatId s =? PubId (UserData m)
  else false.

(** A message is displayed by a handler run when that run appended it to
    the displayed list. *)
Definition displays (h : SavedMessage -> M unit) (m : SavedMessage) (w : World) : bool :=
  Nat.ltb (List.length (MessagesList (app w)))
          (List.length (MessagesList (app (world (h m w))))).

(** ** Outbound requests *)

Definition emit (event : string) (payload : Payload) : M unit :=
  perform (Emit event payload).

Definition sendMessage (text : string) : M unit :=
  chatApp <- getApp ;;
  let user := CurrentUser chatApp in
  if Connected chatApp && LoggedIn chatApp then
    emit "/message" (Message user (CurrentChatId chatApp) text)
  else if negb (LoggedIn chatApp) then
    showError "You are not logged in."
  else
    showError "You are not connected to the server.".

Definition loadChannels : M unit :=
  chatApp <- getApp ;;
  emit "/get-channels" (ChannelsRequest (CurrentUser chatApp)).

Definition loadMessages (chatId : Z) : M unit :=
  chatApp <- getApp ;;
  if negb (Connected chatApp) || negb (LoggedIn chatApp) then
    ret tt
  else
    emit "/get-messages" (MessagesRequest chatId (CurrentUser chatApp)).

Definition openChannel (chatId : Z) : M unit :=
  modifyApp (setCurrentChatId chatId) ;;
  loadMessages chatId.

(** ** The channel directory *)

(** The loop of [getChannelId]: the id of the first channel with the title. *)
Fixpoint lookupTitle (channels : list Channel) (title : string) : option Z :=
  match channels with
  | [] => None
  | channel :: rest =>
      if (Title channel =? title)%string then Some (ChanId channel)
      else lookupTitle rest title
  end.

Definition getChannelId (title : string) (chatApp : ChatApplication) : Z :=
  match lookupTitle (Channels chatApp) title with
  | Some id => id
  | None =>
      if (title =? NOTES_CHANNEL_TITLE)%string then Id (CurrentUser chatApp)
      else GROUP_CHAT_ID
  end.

Fixpoint isChannelInList_loop (list : list Channel) (channelId : Z) : bool :=
  match list with
  | [] => false
  | c :: rest =>
      if ChanId c =? channelId then true else isChannelInList_loop rest channelId
  end.

Definition isChannelInList (channelId : Z) (chatApp : ChatApplication) : bool :=
  isChannelInList_loop (Channels chatApp) channelId.

(** The toolkit's [removeDuplicates]: the options in their order, each
    kept at its first occurrence; [found] holds the options met so far. *)
Fixpoint removeDuplicates_from (found options : list string) : list string :=
  match options with
  | [] => []
  | option :: rest =>
      if existsb (String.eqb option) found then removeDuplicates_from found rest
      else option :: removeDuplicates_from (option :: found) rest
  end.

Definition removeDuplicates (options : list string) : list string :=
  removeDuplicates_from [] options.

(** The toolkit's radio group. [Refresh] drops the repeated options before
    it redraws; [Append] adds an option at the end and refreshes;
    [SetSelected] does nothing when the option is already selected and
    otherwise selects it, calls the change callback, which gui.go sets in
    [buildRightSidebar] to resolve the title and open that channel, and
    refreshes. *)
Definition radioRefresh : M unit :=
  modifyApp (fun a =>
    let r := ChannelsRadioGroup a in
    setChannelsRadioGroup
      (mkRadioGroup (removeDuplicates (Options r)) (Selected r)) a) ;;
  perform RefreshChannels.

Definition radioAppend (option : string) : M unit :=
  modifyApp (fun a =>
    let r := ChannelsRadioGroup a in
    setChannelsRadioGroup (mkRadioGroup (Options r ++ [option]) (Selected r)) a) ;;
  radioRefresh.

Definition radioOnChanged (changed : string) : M unit :=
  chatApp <- getApp ;;
  let selectedChatId := getChannelId changed chatApp in
  openChannel selectedChatId.

Definition radioSetSelected (option : string) : M unit :=
  chatApp <- getApp ;;
  let r := ChannelsRadioGroup chatApp in
  if (Selected r =? option)%string then ret tt
  else
    modifyApp (setChannelsRadioGroup (mkRadioGroup (Options r) option)) ;;
    radioOnChanged option ;;
    radioRefresh.

Definition refreshChannelList : M unit :=
  chatApp <- getApp ;;
  let stringChannels := [GROUP_CHANNEL_TITLE; NOTES_CHANNEL_TITLE] in
  let stringChannels :=
    fold_left (fun acc channel => acc ++ [Title channel])
              (Channels chatApp) stringChannels in
  modifyApp (fun a =>
    setChannelsRadioGroup
      (mkRadioGroup stringChannels (Selected (ChannelsRadioGroup a))) a) ;;
  radioRefresh.

Definition openNotesChannel : M unit :=
  chatApp <- getApp ;;
  openChannel (Id (CurrentUser chatApp)).

Definition openChannelByUser (user : UserPublicInfo) : M unit :=
  chatApp <- getApp ;;
  if PubId user =? Id (CurrentUser chatApp) then
    radioSetSelected NOTES_CHANNEL_TITLE
  else
    when (negb (isChannelInList (PubId user) chatApp))
         (radioAppend (PubUsername user) ;;
          modifyApp (fun a =>
            setChannels
              (Channels a ++ [mkChannel (PubId user) (PubUsername user)]) a)) ;;
    radioSetSelected (PubUsername user).

(** ** The other inbound events *)

Definition onFailedLogin (description : string) : M unit :=
  perform (ShowLoginDialog description) ;;
  modifyApp (setLoggedIn false) ;;
  modifyApp (setProfileInfo "FAILED LOGIN").

Definition onFailedRegistration (description : string) : M unit :=
  perform (ShowRegisterDialog description) ;;
  modifyApp (setLoggedIn false) ;;
  modifyApp (setProfileInfo "FAILED LOGIN").

Definition onLogin (user : User) : M unit :=
  modifyApp (setCurrentUser user) ;;
  modifyApp (setLoggedIn true) ;;
  modifyApp (setProfileInfo ("WELCOME, " ++ Username user)%string) ;;
  perform (AppendLabel ("Success Login: " ++ Username user)%string) ;;
  modifyApp (setCurrentChatId GROUP_CHAT_ID) ;;
  clearMessagesList ;;
  loadChannels.

Definition onGetMessages (messages : list SavedMessage) : M unit :=
  clearMessagesList ;;
  modifyApp (setMessagesList messages) ;;
  perform RefreshMessages ;;
  perform ScrollToTop.

Definition onGetChannels (channels : list Channel) : M unit :=
  modifyApp (setChannels channels) ;;
  refreshChannelList ;;
  chatApp <- getApp ;;
  when (CurrentChatId chatApp =? GROUP_CHAT_ID)
       (radioSetSelected GROUP_CHANNEL_TITLE).

Definition onDisconnection : M unit := showError "Disconnected!".

Definition initClientCallbacks : M unit :=
  perform (On "/failed-login") ;;
  perform (On "/failed-registeration") ;;
  perform (On "/login") ;;
  perform (On "/message") ;;
  perform (On "/get-messages") ;;
  perform (On "/get-channels").

(** ** The settings file *)

(** [encoding/json] on [HostData], as far as gui.go relies on it: both
    directions can report an error. *)
Class Json := {
  json_Marshal : HostData -> option string;
  json_Unmarshal : string -> option HostData
}.

Definition readSettingsFile : M (option string) :=
  fun w => (settingsFile w, w, []).

Definition writeSettingsFile (data : string) : M unit :=
  fun w =>
    if settingsWritable w then
      (tt, mkWorld (app w) (Some data) (settingsWritable w)
                   (network w) (dialed w), [])
    else (tt, w, []).

Definition saveDefaultHostSettings `{Json} : M unit :=
  let defaultHostData := mkHostData DEFAULT_HOST DEFAULT_PORT in
  let jsonByteData :=
    match json_Marshal defaultHostData with
    | Some bytes => bytes
    | None => EmptyString
    end in
  writeSettingsFile jsonByteData.

Definition getHostDataFromSettingsFile `{Json} : M (string * Z) :=
  f <- readSettingsFile ;;
  match f with
  | None =>
      saveDefaultHostSettings ;;
      ret (DEFAULT_HOST, DEFAULT_PORT)
  | Some f =>
      match json_Unmarshal f with
      | None =>
          saveDefaultHostSettings ;;
          ret (DEFAULT_HOST, DEFAULT_PORT)
      | Some hostData => ret (Host hostData, Port hostData)
      end
  end.

(** ** Connecting *)

Definition dq : string := String (ascii_of_nat 34) EmptyString.
Definition nl : string := String (ascii_of_nat 10) EmptyString.

(** [%d] of [fmt.Sprintf]. *)
Definition fmt_d (z : Z) : string := NilZero.string_of_int (Z.to_int z).

(** The description [connect] shows when the first dial fails. *)
Definition connectFailureInfo (host : string) (port : Z) (err : string) : string :=
  ("Can't connect to host " ++ dq ++ host ++ ":" ++ fmt_d port ++ dq ++ nl ++
   "Next try after: 10 sec" ++ nl ++
   "Description: " ++ err ++ nl)%string.

Definition OnConnection : string := "connection".
Definition OnDisconnection : string := "disconnection".

Definition dial (host : string) (port : Z) : M (nat * DialOutcome) :=
  fun w =>
    ((dialed w, network w (dialed w)),
     mkWorld (app w) (settingsFile w) (settingsWritable w)
             (network w) (S (dialed w)),
     [Dial host port]).

Definition connect (host : string) (port : Z) (isReconnect : bool) : M bool :=
  perform (Sleep (1 * Second)) ;;
  dialled <- dial host port ;;
  let '(client, outcome) := dialled in
  match outcome with
  | DialFails err =>
      when (negb isReconnect)
           (let info := connectFailureInfo host port err in
            showError info ;;
            perform GoStartReconnectionTrying) ;;
      ret false
  | DialOk onDisconnectionErr onConnectionErr =>
      perform (On OnDisconnection) ;;
      match onDisconnectionErr with
      | Some err => showError err ;; ret false
      | None =>
          perform (On OnConnection) ;;
          match onConnectionErr with
          | Some err => showError err ;; ret false
          | None =>
              modifyApp (setClient (Some client)) ;;
              modifyApp (setConnected true) ;;
              perform SetOnClosed ;;
              initClientCallbacks ;;
              ret true
          end
      end
  end.

(** The duration [time.ParseDuration] reads from ["<i>m"]. *)
Definition minutes (i : Z) : Duration := i * Minute.

(** The [for] loop of [startReconnectionTrying], with [n] iterations left
    and the loop variable at [i]. *)
Fixpoint reconnectionLoop `{Json} (n : nat) (i : Z) : M unit :=
  match n with
  | O => ret tt
  | S n' =>
      when (negb (i =? 0)) (perform (Sleep (minutes i))) ;;
      hostData <- getHostDataFromSettingsFile ;;
      let '(host, port) := hostData in
      ok <- connect host port true ;;
      if ok then
        perform (ShowInformation "Success!" "Connection restored!")
      else
        reconnectionLoop n' (i + 1)
  end.

Definition startReconnectionTrying `{Json} : M unit :=
  perform (Sleep (10 * Second)) ;;
  reconnectionLoop 10 0.

(** ** Observing a run *)

Definition isNotification (e : Effect) : bool :=
  match e with
  | ShowError _ | ShowInformation _ _ => true
  | _ => false
  end.

Definition isEmit (e : Effect) : bool :=
  match e with Emit _ _ => true | _ => false end.

Definition isDial (e : Effect) : bool :=
  match e with Dial _ _ => true | _ => false end.

Definition isInformation (e : Effect) : bool :=
  match e with ShowInformation _ _ => true | _ => false end.

Definition isSpawn (e : Effect) : bool :=
  match e with GoStartReconnectionTrying => true | _ => false end.

(** The dialogs raised through the notification sink, in order. *)
Definition notifications (es : list Effect) : list Effect := filter isNotification es.

Definition emits (es : list Effect) : list Effect := filter isEmit es.

Definition dialCount (es : list Effect) : nat := List.length (filter isDial es).

Definition spawnCount (es : list Effect) : nat := List.length (filter isSpawn es).

(** The time slept in a run: [time.Sleep d] pauses for at least [d], so
    this is the least wall time the run takes. *)
Fixpoint elapsed (es : list Effect) : Duration :=
  match es with
  | [] => 0
  | Sleep d :: rest => d + elapsed rest
  | _ :: rest => elapsed rest
  end.

(** The earliest time of each dial of a run that starts at [clock]. *)
Fixpoint dialTimes (clock : Duration) (es : list Effect) : list Duration :=
  match es with
  | [] => []
  | Sleep d :: rest => dialTimes (clock + d) rest
  | Dial _ _ :: rest => clock :: dialTimes clock rest
  | _ :: rest => dialTimes clock rest
  end.

(** 1 + 2 + ... + k. *)
Fixpoint sumTo (k : nat) : Z :=
  match k with
  | O => 0
  | S k' => sumTo k' + Z.of_nat k
  end.

(** Whether a dial outcome makes [connect] return true. *)
Definition connectSucceeds (o : DialOutcome) : bool :=
  match o with
  | DialOk None None => true
  | _ => false
  end.

Definition dialFails (o : DialOutcome) : bool :=
  match o with
  | DialFails _ => true
  | DialOk _ _ => false
  end.

(** The effects of the sleep that opens iteration [i] of the retry loop. *)
Definition pause (i : Z) : list Effect :=
  if i =? 0 then [] else [Sleep (minutes i)].

Definition restored : Effect := ShowInformation "Success!" "Connection restored!".

(** ** The statements of the specification that the code does not meet *)

(** The retry schedule as the specification states it: attempt [k] not
    before ten seconds plus 1 + ... + k minutes. *)
Definition retrySchedule_spec `{Json} (w : World) : Prop :=
  forall (k : nat) (t : Duration),
    (1 <= k <= 10)%nat ->
    nth_error (dialTimes 0 (effects (startReconnectionTrying w))) (k - 1) = Some t ->
    10 * Second + sumTo k * Minute <= t.




(** ** Sample environment *)

Definition splitAtChar (c : ascii) : string -> option (string * string) :=
  fix go (s : string) :=
    match s with
    | EmptyString => None
    | String x s' =>
        if Ascii.eqb x c then Some (EmptyString, s')
        else match go s' with
             | Some (before, after) => Some (String x before, after)
             | None => None
             end
    end.

Fixpoint stripPrefix (p s : string) : option string :=
  match p, s with
  | EmptyString, _ => Some s
  | String a p', String b s' => if Ascii.eqb a b then stripPrefix p' s' else None
  | String _ _, EmptyString => None
  end.

(** A codec for the wire form [{"host":"...","port":...}] of a host
    without characters that need escaping; it reads that form only. *)
Definition plainMarshal (d : HostData) : option string :=
  Some ("{" ++ dq ++ "host" ++ dq ++ ":" ++ dq ++ Host d ++ dq ++ "," ++
        dq ++ "port" ++ dq ++ ":" ++ fmt_d (Port d) ++ "}")%string.

Definition plainUnmarshal (s : string) : option HostData :=
  match stripPrefix ("{" ++ dq ++ "host" ++ dq ++ ":" ++ dq)%string s with
  | None => None
  | Some s1 =>
      match splitAtChar (ascii_of_nat 34) s1 with
      | None => None
      | Some (host, s2) =>
          match stripPrefix ("," ++ dq ++ "port" ++ dq ++ ":")%string s2 with
          | None => None
          | Some s3 =>
              match splitAtChar (ascii_of_nat 125) s3 with
              | Some (digits, EmptyString) =>
                  match NilZero.int_of_string digits with
                  | Some n => Some (mkHostData host (Z.of_int n))
                  | None => None
                  end
              | _ => None
              end
          end
      end
  end.

#[local] Instance plainJson : Json :=
  {| json_Marshal := plainMarshal; json_Unmarshal := plainUnmarshal |}.

(** The application record as [init] leaves it. *)
Definition initApp : ChatApplication :=
  mkChatApplication [] None false (mkUser 0 EmptyString) false 0 EmptyString
                    [] (mkRadioGroup [] EmptyString).

(** [init] builds the window and its widgets and leaves the record as
    above. *)
Definition init : M unit := modifyApp (fun _ => initApp).

Definition showWindow : M unit := perform ShowAndRun.

(** [main]: [go chatApp.connect(host, port, false)] starts the first
    connect as a goroutine, whose result is dropped, and the window's event
    loop takes over. *)
Definition main `{Json} : M unit :=
  init ;;
  hostData <- getHostDataFromSettingsFile ;;
  let '(host, port) := hostData in
  perform (GoConnect host port false) ;;
  showWindow.

(** No settings file, and a server that refuses every dial. *)
Definition offlineWorld : World :=
  mkWorld initApp None true (fun _ => DialFails "connection refused") 0%nat.

(** A server that accepts the dial number [k] and refuses the earlier ones. *)
Definition upAfter (k : nat) : World :=
  mkWorld initApp None true
          (fun n => if (n <? k)%nat then DialFails "connection refused"
                    else DialOk None None) 0%nat.

(** A viewer logged in as user 7, connected, with the directory [channels],
    the channel [current] open and the options [shown] displayed. *)
Definition viewer7 : User := mkUser 7 "alice".

Definition session (current : Z) (channels : list Channel) (shown : list string) : World :=
  mkWorld (mkChatApplication [] (Some 0%nat) true viewer7 true current
                             "WELCOME, alice" channels
                             (mkRadioGroup shown GROUP_CHANNEL_TITLE))
          None true (fun _ => DialOk None None) 1%nat.

Definition message (author chat : Z) : SavedMessage :=
  mkSavedMessage (mkUserPublicInfo author "someone") chat "hello" 0.

(** ** Credentials and the buttons *)

(** [getPasswordHash] is declared outside gui.go: the login requests take
    it as a parameter. *)
Class PasswordHash := { getPasswordHash : string -> string }.

Definition sendLoginData `{PasswordHash} (username password : string) : M unit :=
  chatApp <- getApp ;;
  if Connected chatApp then
    emit "/login" (LoginData username (getPasswordHash password))
  else
    showError "You are not connected to the server.".

Definition sendRegisterData `{PasswordHash} (username password : string) : M unit :=
  chatApp <- getApp ;;
  if Connected chatApp then
    emit "/register" (LoginData username (getPasswordHash password))
  else
    showError "You are not connected to the server.".

Definition showLoginDialog (title : string) : M unit :=
  perform (ShowLoginDialog title).

Definition showRegisterDialog (title : string) : M unit :=
  perform (ShowRegisterDialog title).

(** The callback [showLoginDialog] gives to its dialog: [confirmed] is the
    button that closed it, the strings are the texts of its two entries. *)
Definition loginDialogClosed `{PasswordHash}
           (confirmed : bool) (username password : string) : M unit :=
  if confirmed then sendLoginData username password else ret tt.

Definition registerDialogClosed `{PasswordHash}
           (confirmed : bool) (username password : string) : M unit :=
  if confirmed then sendRegisterData username password else ret tt.

(** The Login and Register buttons of [buildLeftSidebar]. *)
Definition loginTapped : M unit :=
  chatApp <- getApp ;;
  if Connected chatApp then showLoginDialog "Login"
  else showError "You are not connected to the server.".

Definition registerTapped : M unit :=
  chatApp <- getApp ;;
  if Connected chatApp then showRegisterDialog "Register"
  else showError "You are not connected to the server.".

(** The Send button of [buildCenter]: [inputText] is the text of the entry
    when the button is tapped, the result is the text the entry is left
    with. *)
Definition sendTapped (inputText : string) : M string :=
  if negb (inputText =? EmptyString)%string then
    sendMessage inputText ;;
    ret EmptyString
  else ret inputText.

(** ** The earlier revision of [connect] *)

Definition EARLIER_HOST : string := "localhost".
Definition EARLIER_PORT : Z := 3811.

Definition initClientCallbacks_earlier : M unit :=
  perform (On "/failed-login") ;;
  perform (On "/failed-registeration") ;;
  perform (On "/login") ;;
  perform (On "/message") ;;
  perform (On "/get-messages").

Definition connect_earlier : M bool :=
  perform (Sleep (1 * Second)) ;;
  dialled <- dial EARLIER_HOST EARLIER_PORT ;;
  let '(client, outcome) := dialled in
  match outcome with
  | DialFails err => showError err ;; ret false
  | DialOk onDisconnectionErr onConnectionErr =>
      perform (On OnDisconnection) ;;
      match onDisconnectionErr with
      | Some err => showError err ;; ret false
      | None =>
          perform (On OnConnection) ;;
          match onConnectionErr with
          | Some err => showError err ;; ret false
          | None =>
              modifyApp (setClient (Some client)) ;;
              modifyApp (setConnected true) ;;
              perform SetOnClosed ;;
              initClientCallbacks_earlier ;;
              emit "/login" (LoginData "vadim" "65ded5353c5ee48d0b7d48c591b8f430") ;;
              ret true
          end
      end
  end.

(** ** Further observations and samples *)

Definition isRegistration (e : Effect) : bool :=
  match e with On _ => true | _ => false end.

(** The handler registrations of a run, in order. *)
Definition registrations (es : list Effect) : list Effect := filter isRegistration es.

(** The session part of the application record: everything but the
    transport handle and the connection flag. *)
Definition sameSession (a b : ChatApplication) : Prop :=
  MessagesList a = MessagesList b /\
  CurrentUser a = CurrentUser b /\
  LoggedIn a = LoggedIn b /\
  CurrentChatId a = CurrentChatId b /\
  ProfileInfo a = ProfileInfo b /\
  Channels a = Channels b /\
  ChannelsRadioGroup a = ChannelsRadioGroup b.

(** The displayed options list the directory: the two implicit entries,
    then the title of every known channel, in the order of the directory,
    a title that has occurred before being dropped. *)
Definition aligned (a : ChatApplication) : Prop :=
  Options (ChannelsRadioGroup a)
  = removeDuplicates
      (GROUP_CHANNEL_TITLE :: NOTES_CHANNEL_TITLE :: map Title (Channels a)).

#[local] Instance sampleHash : PasswordHash :=
  {| getPasswordHash := fun password => ("hash:" ++ password)%string |}.

(** A server whose dial succeeds and whose first lifecycle registration
    fails. *)
Definition brokenRegistration : World :=
  mkWorld initApp None true (fun _ => DialOk (Some "not a function") None) 0%nat.

(** The world of [offlineWorld] with a settings file that names another
    host. *)
Definition configuredWorld : World :=
  mkWorld initApp
          (Some (String (ascii_of_nat 123)
                   (dq ++ "host" ++ dq ++ ":" ++ dq ++ "chat.example" ++ dq ++ "," ++
                    dq ++ "port" ++ dq ++ ":4000}")%string))
          true (fun _ => DialFails "connection refused") 0%nat.

(** * Properties *)

(** ** Reasoning about runs *)

Lemma bind_run {A B} (m : M A) (k : A -> M B) (w : World) :
  bind m k w =
  (result (k (result (m w)) (world (m w))),
   world (k (result (m w)) (world (m w))),
   effects (m w) ++ effects (k (result (m w)) (world (m w)))).
Proof.
  unfold bind, result, world, effects.
  destruct (m w) as [[a w1] e1]; cbn.
  destruct (k a w1) as [[b w2] e2]; reflexivity.
Qed.

Lemma result_mk {A} (a : A) (w : World) (es : list Effect) : result (a, w, es) = a.
Proof. reflexivity. Qed.

Lemma world_mk {A} (a : A) (w : World) (es : list Effect) : world (a, w, es) = w.
Proof. reflexivity. Qed.

Lemma effects_mk {A} (a : A) (w : World) (es : list Effect) : effects (a, w, es) = es.
Proof. reflexivity. Qed.

Lemma addMessageToList_run (msg : SavedMessage) (w : World) :
  addMessageToList msg w =
  (tt,
   mkWorld (setMessagesList (MessagesList (app w) ++ [msg]) (app w))
           (settingsFile w) (settingsWritable w) (network w) (dialed w),
   [RefreshMessages]).
Proof. reflexivity. Qed.

(** Decide every integer comparison in the goal, keeping the facts. *)
Ltac split_eqb :=
  repeat match goal with
         | |- context [Z.eqb ?a ?b] => destruct (Z.eqb_spec a b)
         end.

(** ** The message router *)

(** C1. For every inbound message and every session state, the "/message"
    handler appends the message to the displayed list (once, with one
    refresh) exactly when the five-branch router of the specification says
    it is visible, and otherwise leaves the world untouched and performs no
    effect; the handler is a total function, so it never raises. *)
Theorem onMessage_follows_router (m : SavedMessage) (w : World) :
  onMessage m w = (if isVisible m (app w) then addMessageToList m w else (tt, w, [])) /\
  displays onMessage m w = isVisible m (app w).
Proof.
  assert (E : onMessage m w =
              if isVisible m (app w) then addMessageToList m w else (tt, w, [])).
  { unfold onMessage, isVisible, getChatType, bind, getApp.
    rewrite addMessageToList_run.
    split_eqb; cbn; try reflexivity; try congruence. }
  split; [exact E|].
  unfold displays. rewrite E.
  destruct (isVisible m (app w)).
  - rewrite addMessageToList_run. cbn. rewrite length_app. cbn.
    apply Nat.ltb_lt. lia.
  - cbn. apply Nat.ltb_irrefl.
Qed.

(** C10. The handlers of the two revisions differ: there are a message and
    a logged-in session, the message addressed to the viewer
    ([chatId = viewer.id]) while the viewer has its author's channel open
    ([currentChannelId = author.id]), that the current handler displays
    and the earlier handler, which compares the open channel with the
    message's [chatId], does not. *)
Theorem revisions_differ :
  exists (m : SavedMessage) (w : World),
    LoggedIn (app w) = true /\
    ChatId m = Id (CurrentUser (app w)) /\
    CurrentChatId (app w) = PubId (UserData m) /\
    displays onMessage m w = true /\
    displays onMessage_earlier m w = false.
Proof.
  exists (message 9 7), (session 9 [] []).
  repeat split; reflexivity.
Qed.

(** ** Connecting and the retry loop *)

Lemma elapsed_app (a b : list Effect) : elapsed (a ++ b) = elapsed a + elapsed b.
Proof.
  induction a as [|e a IH]; [reflexivity|].
  destruct e; simpl; rewrite IH; lia.
Qed.

Lemma dialTimes_app (a b : list Effect) (clock : Duration) :
  dialTimes clock (a ++ b) = dialTimes clock a ++ dialTimes (clock + elapsed a) b.
Proof.
  revert clock; induction a as [|e a IH]; intro clock.
  - cbn. now rewrite Z.add_0_r.
  - destruct e; simpl; rewrite IH;
      try reflexivity; f_equal; try (f_equal; lia).
Qed.

Lemma dialCount_app (a b : list Effect) :
  dialCount (a ++ b) = (dialCount a + dialCount b)%nat.
Proof. unfold dialCount. now rewrite filter_app, length_app. Qed.

Section Settings.
Context `{Json}.

(** Loading the settings performs no effect and touches neither the
    application record nor the network. *)
Lemma getHostDataFromSettingsFile_quiet (w : World) :
  let r := getHostDataFromSettingsFile w in
  effects r = [] /\ app (world r) = app w /\
  network (world r) = network w /\ dialed (world r) = dialed w.
Proof.
  unfold getHostDataFromSettingsFile, saveDefaultHostSettings,
    writeSettingsFile, readSettingsFile, bind, ret.
  destruct (settingsFile w) as [f|].
  - destruct (json_Unmarshal f); cbn.
    + repeat split.
    + destruct (settingsWritable w); cbn; repeat split.
  - destruct (settingsWritable w); cbn; repeat split.
Qed.
End Settings.

(** One retry: what [connect] does when called by the loop. *)
Lemma connect_retry_run (host : string) (port : Z) (w : World) :
  let r := connect host port true w in
  let o := network w (dialed w) in
  result r = connectSucceeds o /\
  network (world r) = network w /\
  dialed (world r) = S (dialed w) /\
  (forall clock, dialTimes clock (effects r) = [clock + Second]) /\
  elapsed (effects r) = Second /\
  dialCount (effects r) = 1%nat /\
  filter isInformation (effects r) = [] /\
  (result r = true -> Connected (app (world r)) = true) /\
  (dialFails o = true -> notifications (effects r) = [] /\ app (world r) = app w).
Proof.
  unfold connect, bind, dial, perform, when, ret. cbn.
  destruct (network w (dialed w)) as [err|[e1|] [e2|]]; cbn;
    repeat split; intros; try reflexivity; try discriminate.
Qed.

Section RetryLoop.
Context `{Json}.

(** One iteration of the loop, unfolded. *)
Lemma reconnectionLoop_step (n : nat) (i : Z) (w : World) :
  let r0 := getHostDataFromSettingsFile w in
  let r1 := connect (fst (result r0)) (snd (result r0)) true (world r0) in
  let r2 := reconnectionLoop n (i + 1) (world r1) in
  reconnectionLoop (S n) i w =
  if result r1 then (tt, world r1, pause i ++ effects r1 ++ [restored])
  else (tt, world r2, pause i ++ effects r1 ++ effects r2).
Proof.
  cbn zeta.
  pose proof (getHostDataFromSettingsFile_quiet w) as (E0 & _).
  cbn [reconnectionLoop].
  rewrite bind_run. fold (pause i).
  assert (P : effects (when (negb (i =? 0)) (perform (Sleep (minutes i))) w) = pause i
              /\ world (when (negb (i =? 0)) (perform (Sleep (minutes i))) w) = w).
  { unfold pause. destruct (i =? 0); split; reflexivity. }
  destruct P as (-> & ->).
  rewrite bind_run, E0. cbn [List.app].
  destruct (result (getHostDataFromSettingsFile w)) as [host port]. cbn [fst snd].
  rewrite bind_run.
  destruct (result (connect host port true (world (getHostDataFromSettingsFile w)))).
  - reflexivity.
  - destruct (reconnectionLoop n (i + 1) _) as [[[] w2] e2]. reflexivity.
Qed.

Lemma pause_elapsed (i : Z) : elapsed (pause i) = minutes i.
Proof.
  unfold pause. destruct (Z.eqb_spec i 0) as [->|]; cbn; [reflexivity | lia].
Qed.

Lemma pause_no_dial (i : Z) (clock : Duration) :
  dialTimes clock (pause i) = [] /\ dialCount (pause i) = 0%nat /\
  notifications (pause i) = [] /\ filter isInformation (pause i) = [].
Proof. unfold pause. destruct (i =? 0); repeat split. Qed.

(** The loop dials at most once per iteration. *)
Lemma reconnectionLoop_dialCount (n : nat) :
  forall (i : Z) (w : World),
    (dialCount (effects (reconnectionLoop n i w)) <= n)%nat.
Proof.
  induction n as [|n IH]; intros i w; [cbn; lia|].
  rewrite reconnectionLoop_step.
  set (r0 := getHostDataFromSettingsFile w).
  set (r1 := connect _ _ true (world r0)).
  destruct (connect_retry_run (fst (result r0)) (snd (result r0)) (world r0))
    as (_ & _ & _ & _ & _ & D & _).
  fold r1 in D.
  destruct (pause_no_dial i 0) as (_ & P & _).
  specialize (IH (i + 1) (world r1)).
  destruct (result r1); unfold effects at 1; cbn [snd];
    rewrite !dialCount_app, P, D; [cbn; lia | lia].
Qed.

(** The time of the dial number [k] (counted from 0) of a loop entered at
    [clock] with the loop variable at [i]. *)
Lemma reconnectionLoop_dialTimes (n : nat) :
  forall (i : Z) (w : World) (clock : Duration) (k : nat) (t : Duration),
    nth_error (dialTimes clock (effects (reconnectionLoop n i w))) k = Some t ->
    t = clock + (Z.of_nat (S k) * i + sumTo k) * Minute + Z.of_nat (S k) * Second.
Proof.
  induction n as [|n IH]; intros i w clock k t.
  - cbn. destruct k; discriminate.
  - rewrite reconnectionLoop_step.
    set (r0 := getHostDataFromSettingsFile w).
    set (r1 := connect _ _ true (world r0)).
    destruct (connect_retry_run (fst (result r0)) (snd (result r0)) (world r0))
      as (_ & _ & _ & T & E & _).
    fold r1 in T, E.
    destruct (pause_no_dial i clock) as (P & _).
    pose proof (pause_elapsed i) as PE. unfold minutes in PE.
    assert (S1 : sumTo 0 = 0) by reflexivity.
    assert (S2 : forall j, sumTo (S j) = sumTo j + Z.of_nat (S j)) by reflexivity.
    generalize dependent Minute. generalize dependent Second.
    intros sec T E min IH PE.
    destruct (result r1); unfold effects at 1; cbn [snd];
      rewrite !dialTimes_app, P, T, PE; cbn [List.app].
    + destruct k as [|k]; cbn [nth_error].
      * intros [= <-]. rewrite S1. lia.
      * cbn. destruct k; discriminate.
    + destruct k as [|k]; cbn [nth_error].
      * intros [= <-]. rewrite S1. lia.
      * intros Hk. apply IH in Hk. subst t. rewrite E, (S2 k).
        rewrite !Nat2Z.inj_succ. unfold Duration in *. ring.
Qed.
End RetryLoop.

Lemma dialTimes_length (es : list Effect) :
  forall clock, List.length (dialTimes clock es) = dialCount es.
Proof.
  unfold dialCount.
  induction es as [|e es IH]; intro clock; [reflexivity|].
  destruct e; simpl; rewrite ?IH; reflexivity.
Qed.

Section RetrySchedule.
Context `{Json}.

Lemma startReconnectionTrying_run (w : World) :
  startReconnectionTrying w =
  (tt, world (reconnectionLoop 10 0 w),
   Sleep (10 * Second) :: effects (reconnectionLoop 10 0 w)).
Proof.
  unfold startReconnectionTrying. rewrite bind_run.
  change (world (perform (Sleep (10 * Second)) w)) with w.
  destruct (result (reconnectionLoop 10 0 w)). reflexivity.
Qed.

Lemma startReconnectionTrying_dialTimes (w : World) (k : nat) (t : Duration) :
  nth_error (dialTimes 0 (effects (startReconnectionTrying w))) k = Some t ->
  (k < 10)%nat /\
  t = 10 * Second + sumTo k * Minute + Z.of_nat (S k) * Second.
Proof.
  rewrite startReconnectionTrying_run. unfold effects at 1.
  cbn [snd dialTimes]. intro Hk. split.
  - assert (L : (k < List.length
                     (dialTimes (0 + 10 * Second)%Z
                                (effects (reconnectionLoop 10 0 w))))%nat)
      by (apply nth_error_Some; congruence).
    rewrite dialTimes_length in L.
    pose proof (reconnectionLoop_dialCount 10 0 w). lia.
  - apply reconnectionLoop_dialTimes in Hk. rewrite Hk.
    unfold Duration in *. ring.
Qed.

(** C2 (amended). Attempt [k] of the retry loop, counted from 1, fires
    when the loop has slept ten seconds, 1 + ... + (k - 1) minutes and the
    k one-second settle delays of [connect]; so it does not fire before
    ten seconds plus 1 + ... + (k - 1) minutes. The delay that precedes
    attempt [k + 1] is [k] further minutes (and one settle second), so the
    gaps between successive attempts increase strictly. *)
Theorem retry_schedule (w : World) (k : nat) (t : Duration) :
  (1 <= k)%nat ->
  nth_error (dialTimes 0 (effects (startReconnectionTrying w))) (k - 1) = Some t ->
  (k <= 10)%nat /\
  t = 10 * Second + sumTo (k - 1) * Minute + Z.of_nat k * Second /\
  10 * Second + sumTo (k - 1) * Minute <= t /\
  (forall t1,
      nth_error (dialTimes 0 (effects (startReconnectionTrying w))) k = Some t1 ->
      t1 - t = Z.of_nat k * Minute + Second /\
      forall t2,
        nth_error (dialTimes 0 (effects (startReconnectionTrying w))) (S k) = Some t2 ->
        t1 - t < t2 - t1).
Proof.
  intros Hk Ht.
  apply startReconnectionTrying_dialTimes in Ht as (Hlt & Et).
  replace (S (k - 1)) with k in Et by lia.
  assert (Hs : forall j, sumTo (S j) = sumTo j + Z.of_nat (S j)) by reflexivity.
  assert (Hsec : 0 < Second) by reflexivity.
  assert (Hmin : 0 < Minute) by reflexivity.
  unfold Duration in *.
  split; [lia|]. split; [exact Et|]. split; [lia|].
  intros t1 Ht1.
  apply startReconnectionTrying_dialTimes in Ht1 as (_ & Et1).
  destruct k as [|k]; [lia|].
  replace (S k - 1)%nat with k in Et by lia.
  rewrite (Hs k) in Et1.
  split.
  - rewrite Et, Et1, !Nat2Z.inj_succ. ring.
  - intros t2 Ht2.
    apply startReconnectionTrying_dialTimes in Ht2 as (_ & Et2).
    rewrite (Hs (S k)), (Hs k) in Et2.
    rewrite Et, Et1, Et2, !Nat2Z.inj_succ.
    generalize dependent Minute. generalize dependent Second. intros. nia.
Qed.
End RetrySchedule.

(** Witness of C2: the second attempt against a server that refuses every
    dial. *)
Lemma retry_schedule_witness :
  (2 <= 10)%nat /\
  72000000000 = 10 * Second + sumTo 1 * Minute + 2 * Second /\
  10 * Second + sumTo 1 * Minute <= 72000000000.
Proof.
  destruct (retry_schedule offlineWorld 2 72000000000) as (A & B & C & _).
  - lia.
  - vm_compute. reflexivity.
  - exact (conj A (conj B C)).
Defined.

(** Counterexample of C2 as stated: against a server that refuses every
    dial the first attempt fires once eleven seconds have been slept, before
    the ten seconds plus one minute the stated schedule requires. *)
Lemma stated_schedule_fails : ~ retrySchedule_spec offlineWorld.
Proof.
  intro Hs.
  assert (Hk : (1 <= 1 <= 10)%nat) by lia.
  specialize (Hs 1%nat 11000000000 Hk eq_refl).
  vm_compute in Hs. apply Hs. reflexivity.
Qed.

(** C4. When the dial fails, [connect] returns false whatever [isRetry]
    is, and leaves the application record as it was. On the first attempt
    ([isRetry] false) it raises one notification, the error dialog whose
    text names the host and port, announces the next try and ends with the
    failure description, and starts the background retry loop once; as a
    retry it raises no notification and starts no loop. *)
Theorem connect_dial_failure (host : string) (port : Z) (isRetry : bool)
        (err : string) (w : World) :
  network w (dialed w) = DialFails err ->
  let r := connect host port isRetry w in
  let text :=
    ("Can't connect to host " ++ dq ++ host ++ ":" ++ fmt_d port ++ dq ++ nl ++
     "Next try after: 10 sec" ++ nl ++
     "Description: " ++ err ++ nl)%string in
  result r = false /\
  app (world r) = app w /\
  effects r =
    Sleep (1 * Second) :: Dial host port ::
    (if isRetry then [] else [ShowError text; GoStartReconnectionTrying]) /\
  notifications (effects r) = (if isRetry then [] else [ShowError text]) /\
  spawnCount (effects r) = (if isRetry then 0 else 1)%nat.
Proof.
  intro Hnet. unfold connect, bind, dial, perform, when, showError, ret. cbn.
  rewrite Hnet. destruct isRetry; cbn; repeat split.
Qed.

(** Witness of C4: the first connect and a retry against a server that
    refuses every dial; the dialog of the first connect is spelled out. *)
Lemma connect_dial_failure_witness :
  result (connect DEFAULT_HOST DEFAULT_PORT false offlineWorld) = false /\
  notifications (effects (connect DEFAULT_HOST DEFAULT_PORT false offlineWorld))
  = [ShowError
       ("Can't connect to host " ++
        String (ascii_of_nat 34) "localhost:3811" ++
        String (ascii_of_nat 34) (String (ascii_of_nat 10) "Next try after: 10 sec") ++
        String (ascii_of_nat 10) "Description: connection refused" ++
        String (ascii_of_nat 10) EmptyString)%string] /\
  spawnCount (effects (connect DEFAULT_HOST DEFAULT_PORT false offlineWorld)) = 1%nat /\
  result (connect DEFAULT_HOST DEFAULT_PORT true offlineWorld) = false /\
  notifications (effects (connect DEFAULT_HOST DEFAULT_PORT true offlineWorld)) = [].
Proof.
  destruct (connect_dial_failure DEFAULT_HOST DEFAULT_PORT false
              "connection refused" offlineWorld eq_refl) as (A & _ & _ & N & B).
  destruct (connect_dial_failure DEFAULT_HOST DEFAULT_PORT true
              "connection refused" offlineWorld eq_refl) as (C & _ & _ & D & _).
  exact (conj A (conj N (conj B (conj C D)))).
Defined.

Lemma dialFails_not_connected (o : DialOutcome) :
  dialFails o = true -> connectSucceeds o = false.
Proof. destruct o; [reflexivity | discriminate]. Qed.

Section RetryOutcome.
Context `{Json}.

(** What one iteration knows about the [connect] it runs. *)
Lemma iteration_connect (w : World) :
  let r0 := getHostDataFromSettingsFile w in
  let r1 := connect (fst (result r0)) (snd (result r0)) true (world r0) in
  result r1 = connectSucceeds (network w (dialed w)) /\
  network (world r1) = network w /\
  dialed (world r1) = S (dialed w) /\
  dialCount (effects r1) = 1%nat /\
  filter isInformation (effects r1) = [] /\
  (result r1 = true -> Connected (app (world r1)) = true) /\
  (dialFails (network w (dialed w)) = true ->
   notifications (effects r1) = [] /\ app (world r1) = app w).
Proof.
  intros r0 r1.
  destruct (getHostDataFromSettingsFile_quiet w) as (_ & A0 & N0 & D0).
  fold r0 in A0, N0, D0.
  destruct (connect_retry_run (fst (result r0)) (snd (result r0)) (world r0))
    as (R & N & D & _ & _ & C & I & K & F).
  fold r1 in R, N, D, C, I, K, F.
  rewrite N0, D0 in R, F. rewrite N0 in N. rewrite D0 in D. rewrite A0 in F.
  repeat split; try assumption; apply F; assumption.
Qed.

(** The loop stops at the first attempt on which [connect] succeeds. *)
Lemma reconnectionLoop_success (k : nat) :
  forall (n : nat) (i : Z) (w : World),
    (k < n)%nat ->
    (forall j, (j < k)%nat -> connectSucceeds (network w (dialed w + j)) = false) ->
    connectSucceeds (network w (dialed w + k)) = true ->
    let r := reconnectionLoop n i w in
    dialCount (effects r) = S k /\
    (exists before,
        effects r = before ++ [restored] /\ filter isInformation before = []) /\
    Connected (app (world r)) = true.
Proof.
  induction k as [|k IH]; intros n i w Hn Hbefore Hk;
    (destruct n as [|n]; [lia|]); cbn zeta;
    rewrite reconnectionLoop_step;
    destruct (iteration_connect w) as (R & N & D & C & I & K & _);
    destruct (pause_no_dial i 0) as (_ & PD & _ & PI);
    set (r1 := connect _ _ true _) in *.
  - rewrite Nat.add_0_r in Hk. rewrite Hk in R. rewrite R.
    rewrite !effects_mk, world_mk.
    rewrite !dialCount_app, PD, C. split; [reflexivity|]. split.
    + eexists. rewrite app_assoc. split; [reflexivity|].
      now rewrite filter_app, PI, I.
    + apply K, R.
  - pose proof (Hbefore 0%nat ltac:(lia)) as H0.
    rewrite Nat.add_0_r in H0. rewrite H0 in R. rewrite R.
    rewrite !effects_mk, world_mk.
    destruct (IH n (i + 1) (world r1)) as (C2 & (before & E2 & I2) & K2);
      [| | | rewrite !dialCount_app, PD, C, C2; split; [reflexivity|]; split;
             [| exact K2] ].
    + lia.
    + intros j Hj. rewrite N, D.
      replace (S (dialed w) + j)%nat with (dialed w + S j)%nat by lia.
      apply Hbefore. lia.
    + rewrite N, D.
      replace (S (dialed w) + k)%nat with (dialed w + S k)%nat by lia.
      exact Hk.
    + exists (pause i ++ effects r1 ++ before).
      rewrite E2, <- !app_assoc. split; [reflexivity|].
      now rewrite !filter_app, PI, I, I2.
Qed.

(** When no attempt connects, the loop runs all its iterations and reports
    nothing of its own. *)
Lemma reconnectionLoop_exhausted (n : nat) :
  forall (i : Z) (w : World),
    (forall j, (j < n)%nat -> connectSucceeds (network w (dialed w + j)) = false) ->
    let r := reconnectionLoop n i w in
    dialCount (effects r) = n /\ filter isInformation (effects r) = [].
Proof.
  induction n as [|n IH]; intros i w Hall; [split; reflexivity|]. cbn zeta.
  rewrite reconnectionLoop_step.
  destruct (iteration_connect w) as (R & N & D & C & I & _).
  destruct (pause_no_dial i 0) as (_ & PD & _ & PI).
  set (r1 := connect _ _ true _) in *.
  pose proof (Hall 0%nat ltac:(lia)) as H0.
  rewrite Nat.add_0_r in H0. rewrite H0 in R. rewrite R.
  rewrite !effects_mk.
  destruct (IH (i + 1) (world r1)) as (C2 & I2).
  - intros j Hj. rewrite N, D.
    replace (S (dialed w) + j)%nat with (dialed w + S j)%nat by lia.
    apply Hall. lia.
  - rewrite !dialCount_app, !filter_app, PD, PI, C, I, C2, I2. split; reflexivity.
Qed.

(** When every dial fails, the loop raises no notification and leaves the
    application record as it was. *)
Lemma reconnectionLoop_silent (n : nat) :
  forall (i : Z) (w : World),
    (forall j, (j < n)%nat -> dialFails (network w (dialed w + j)) = true) ->
    let r := reconnectionLoop n i w in
    notifications (effects r) = [] /\ app (world r) = app w.
Proof.
  induction n as [|n IH]; intros i w Hall; [split; reflexivity|]. cbn zeta.
  rewrite reconnectionLoop_step.
  destruct (iteration_connect w) as (R & N & D & _ & _ & _ & F).
  destruct (pause_no_dial i 0) as (_ & _ & PN & _).
  set (r1 := connect _ _ true _) in *.
  pose proof (Hall 0%nat) as H0. rewrite Nat.add_0_r in H0.
  specialize (H0 ltac:(lia)). destruct (F H0) as (N1 & A1).
  rewrite (dialFails_not_connected _ H0) in R. rewrite R.
  rewrite effects_mk, world_mk.
  destruct (IH (i + 1) (world r1)) as (N2 & A2).
  - intros j Hj. rewrite N, D.
    replace (S (dialed w) + j)%nat with (dialed w + S j)%nat by lia.
    apply Hall. lia.
  - unfold notifications in *. rewrite !filter_app, PN, N1, N2, A2, A1.
    split; reflexivity.
Qed.
End RetryOutcome.

(** C3. The retry loop is a total function that dials at most ten times.
    When attempt [k + 1] is the first on which [connect] succeeds, exactly
    [k + 1] dials are made, the last effect of the loop is the "Connection
    restored!" information dialog, no such dialog is raised before it and
    the application is connected. When all ten dials fail, ten dials are
    made, no notification is raised and the application record is left as
    it was. *)
Theorem startReconnectionTrying_terminates `{Json} (w : World) :
  let r := startReconnectionTrying w in
  (dialCount (effects r) <= 10)%nat /\
  (forall k,
      (k < 10)%nat ->
      (forall j, (j < k)%nat -> connectSucceeds (network w (dialed w + j)) = false) ->
      connectSucceeds (network w (dialed w + k)) = true ->
      dialCount (effects r) = S k /\
      (exists before,
          effects r = before ++ [restored] /\ filter isInformation before = []) /\
      Connected (app (world r)) = true) /\
  ((forall j, (j < 10)%nat -> dialFails (network w (dialed w + j)) = true) ->
   dialCount (effects r) = 10%nat /\
   notifications (effects r) = [] /\
   app (world r) = app w).
Proof.
  cbn zeta. rewrite startReconnectionTrying_run, effects_mk, world_mk.
  change (Sleep (10 * Second) :: effects (reconnectionLoop 10 0 w))
    with ([Sleep (10 * Second)] ++ effects (reconnectionLoop 10 0 w)).
  rewrite dialCount_app. change (dialCount [Sleep (10 * Second)]) with 0%nat.
  split; [apply reconnectionLoop_dialCount|]. split.
  - intros k Hk Hbefore Hsucc.
    destruct (reconnectionLoop_success k 10 0 w Hk Hbefore Hsucc)
      as (C & (before & E & I) & K).
    split; [exact C|]. split; [|exact K].
    exists ([Sleep (10 * Second)] ++ before).
    rewrite E, app_assoc. split; [reflexivity|].
    rewrite filter_app, I. reflexivity.
  - intros Hall.
    destruct (reconnectionLoop_exhausted 10 0 w) as (C & _).
    { intros j Hj. apply dialFails_not_connected, Hall, Hj. }
    destruct (reconnectionLoop_silent 10 0 w Hall) as (N & A).
    split; [exact C|]. split; [|exact A].
    unfold notifications in *. rewrite filter_app, N. reflexivity.
Qed.

(** Witness of C3: a server that accepts the third dial, and a server that
    refuses every dial. *)
Lemma startReconnectionTrying_terminates_witness :
  dialCount (effects (startReconnectionTrying (upAfter 2))) = 3%nat /\
  Connected (app (world (startReconnectionTrying (upAfter 2)))) = true /\
  dialCount (effects (startReconnectionTrying offlineWorld)) = 10%nat /\
  notifications (effects (startReconnectionTrying offlineWorld)) = [].
Proof.
  destruct (startReconnectionTrying_terminates (upAfter 2)) as (_ & S2 & _).
  destruct (S2 2%nat) as (A & _ & B).
  - lia.
  - intros [|[|j]] Hj; [reflexivity | reflexivity | lia].
  - reflexivity.
  - destruct (startReconnectionTrying_terminates offlineWorld) as (_ & _ & F).
    destruct F as (C & D & _).
    + intros j _. reflexivity.
    + exact (conj A (conj B (conj C D))).
Defined.

(** ** The settings file *)

(** C8. When settings.json cannot be read or does not parse, loading the
    configuration returns the default host and port with no effect at all
    (no notification, no error value), and stores the marshalled default
    when the file can be written. A second load returns the same default;
    when the file was written it reads it from the file, which it leaves
    as it is. The codec is only asked to decode its own encoding of the
    default. *)
Theorem getHostDataFromSettingsFile_default `{Json} (w : World) (bytes : string) :
  json_Marshal (mkHostData DEFAULT_HOST DEFAULT_PORT) = Some bytes ->
  json_Unmarshal bytes = Some (mkHostData DEFAULT_HOST DEFAULT_PORT) ->
  (settingsFile w = None \/
   exists f, settingsFile w = Some f /\ json_Unmarshal f = None) ->
  let r1 := getHostDataFromSettingsFile w in
  let r2 := getHostDataFromSettingsFile (world r1) in
  result r1 = (DEFAULT_HOST, DEFAULT_PORT) /\
  effects r1 = [] /\
  app (world r1) = app w /\
  (settingsWritable w = true -> settingsFile (world r1) = Some bytes) /\
  result r2 = (DEFAULT_HOST, DEFAULT_PORT) /\
  effects r2 = [] /\
  (settingsWritable w = true -> world r2 = world r1).
Proof.
  intros Hm Hu Hbad.
  assert (E1 : getHostDataFromSettingsFile w =
               ((DEFAULT_HOST, DEFAULT_PORT),
                if settingsWritable w
                then mkWorld (app w) (Some bytes) (settingsWritable w)
                             (network w) (dialed w)
                else w,
                [])).
  { unfold getHostDataFromSettingsFile, saveDefaultHostSettings,
      writeSettingsFile, readSettingsFile, bind, ret.
    rewrite Hm.
    destruct Hbad as [-> | (f & -> & ->)];
      destruct (settingsWritable w); reflexivity. }
  cbn zeta. rewrite E1, result_mk, world_mk, effects_mk.
  destruct (settingsWritable w) eqn:Hw.
  - assert (E2 : forall w', settingsFile w' = Some bytes ->
                   getHostDataFromSettingsFile w'
                   = ((DEFAULT_HOST, DEFAULT_PORT), w', [])).
    { intros w' Hf.
      unfold getHostDataFromSettingsFile, readSettingsFile, bind, ret.
      rewrite Hf, Hu. reflexivity. }
    rewrite E2 by reflexivity.
    repeat split.
  - rewrite E1, ?Hw. repeat split; discriminate.
Qed.

(** Witness of C8: no settings file, the sample codec. *)
Lemma getHostDataFromSettingsFile_default_witness :
  result (getHostDataFromSettingsFile offlineWorld) = (DEFAULT_HOST, DEFAULT_PORT) /\
  result (getHostDataFromSettingsFile
            (world (getHostDataFromSettingsFile offlineWorld)))
  = (DEFAULT_HOST, DEFAULT_PORT) /\
  world (getHostDataFromSettingsFile
           (world (getHostDataFromSettingsFile offlineWorld)))
  = world (getHostDataFromSettingsFile offlineWorld).
Proof.
  destruct (getHostDataFromSettingsFile_default offlineWorld
              (String (ascii_of_nat 123)
                 (dq ++ "host" ++ dq ++ ":" ++ dq ++ "localhost" ++ dq ++ "," ++
                  dq ++ "port" ++ dq ++ ":3811}")%string))
    as (A & _ & _ & _ & B & _ & C).
  - vm_compute. reflexivity.
  - vm_compute. reflexivity.
  - left. reflexivity.
  - exact (conj A (conj B (C eq_refl))).
Defined.

(** ** The channel directory *)

Lemma lookupTitle_none (channels : list Channel) (title : string) :
  (forall c, In c channels -> Title c <> title) ->
  lookupTitle channels title = None.
Proof.
  induction channels as [|c rest IH]; intro Hno; [reflexivity|]. cbn.
  destruct (String.eqb_spec (Title c) title) as [E|_].
  - exfalso. apply (Hno c); [left; reflexivity | exact E].
  - apply IH. intros c' Hin. apply Hno. right. exact Hin.
Qed.

Lemma lookupTitle_first (before after : list Channel) (c : Channel) (title : string) :
  Title c = title ->
  (forall c', In c' before -> Title c' <> title) ->
  lookupTitle (before ++ c :: after) title = Some (ChanId c).
Proof.
  intros Hc. induction before as [|b before IH]; intro Hno; cbn.
  - rewrite Hc, String.eqb_refl. reflexivity.
  - destruct (String.eqb_spec (Title b) title) as [E|_].
    + exfalso. apply (Hno b); [left; reflexivity | exact E].
    + apply IH. intros c' Hin. apply Hno. right. exact Hin.
Qed.




Lemma isChannelInList_loop_app (l : list Channel) (c : Channel) :
  isChannelInList_loop (l ++ [c]) (ChanId c) = true.
Proof.
  induction l as [|x l IH]; cbn.
  - now rewrite Z.eqb_refl.
  - destruct (ChanId x =? ChanId c); [reflexivity | exact IH].
Qed.

(** *** The selector's options *)

Lemma existsb_eqb_In (option : string) (found : list string) :
  existsb (String.eqb option) found = true <-> In option found.
Proof.
  rewrite existsb_exists. split.
  - intros (x & Hin & E). apply String.eqb_eq in E. now subst.
  - intro Hin. exists option. split; [exact Hin | apply String.eqb_refl].
Qed.

Lemma removeDuplicates_from_In (options : list string) :
  forall (found : list string) (t : string),
    In t (removeDuplicates_from found options) <-> In t options /\ ~ In t found.
Proof.
  induction options as [|o rest IH]; intros found t; cbn.
  - tauto.
  - destruct (existsb (String.eqb o) found) eqn:E.
    + apply existsb_eqb_In in E. rewrite IH.
      split; [tauto|]. intros ([<- | Hin] & Hn); [contradiction | tauto].
    + assert (Ho : ~ In o found).
      { intro Hin. apply existsb_eqb_In in Hin. congruence. }
      cbn. rewrite IH. cbn. split.
      * intros [<- | (Hin & Hn)]; [tauto|]. split; [tauto|]. intro. apply Hn. tauto.
      * intros ([<- | Hin] & Hn); [tauto|].
        destruct (string_dec o t) as [<- | Hne]; [tauto|]. right. split; [exact Hin|].
        intros [E' | Hf]; [exact (Hne E') | exact (Hn Hf)].
Qed.

Lemma removeDuplicates_from_NoDup (options : list string) :
  forall found, NoDup (removeDuplicates_from found options).
Proof.
  induction options as [|o rest IH]; intro found; cbn; [constructor|].
  destruct (existsb (String.eqb o) found); [apply IH|].
  constructor; [|apply IH].
  rewrite removeDuplicates_from_In. cbn. tauto.
Qed.

(** Only the members of [found] matter. *)
Lemma removeDuplicates_from_ext (options : list string) :
  forall found1 found2,
    (forall t, In t found1 <-> In t found2) ->
    removeDuplicates_from found1 options = removeDuplicates_from found2 options.
Proof.
  induction options as [|o rest IH]; intros found1 found2 Hsame; cbn; [reflexivity|].
  assert (E : existsb (String.eqb o) found1 = existsb (String.eqb o) found2).
  { destruct (existsb (String.eqb o) found1) eqn:E1;
      destruct (existsb (String.eqb o) found2) eqn:E2; try reflexivity.
    - apply existsb_eqb_In, Hsame, existsb_eqb_In in E1. congruence.
    - apply existsb_eqb_In, Hsame, existsb_eqb_In in E2. congruence. }
  rewrite E. destruct (existsb (String.eqb o) found2); [apply IH, Hsame|].
  f_equal. apply IH. intro t. cbn. rewrite Hsame. tauto.
Qed.

Lemma removeDuplicates_from_app (l1 : list string) :
  forall (found l2 : list string),
    removeDuplicates_from found (l1 ++ l2)
    = removeDuplicates_from found l1 ++ removeDuplicates_from (l1 ++ found) l2.
Proof.
  induction l1 as [|o l1 IH]; intros found l2; cbn; [reflexivity|].
  destruct (existsb (String.eqb o) found) eqn:E.
  - rewrite IH. f_equal. apply removeDuplicates_from_ext.
    apply existsb_eqb_In in E. intro t. cbn. rewrite !in_app_iff.
    split; [tauto|]. intros [<- | H]; tauto.
  - cbn. rewrite IH. do 2 f_equal. apply removeDuplicates_from_ext.
    intro t. cbn. rewrite !in_app_iff. cbn. tauto.
Qed.

Lemma removeDuplicates_from_id (options : list string) :
  forall found,
    NoDup options ->
    (forall t, In t options -> ~ In t found) ->
    removeDuplicates_from found options = options.
Proof.
  induction options as [|o rest IH]; intros found Hnd Hfresh; cbn; [reflexivity|].
  inversion Hnd as [|? ? Ho Hrest]; subst.
  destruct (existsb (String.eqb o) found) eqn:E.
  - apply existsb_eqb_In in E. exfalso. apply (Hfresh o); [left; reflexivity | exact E].
  - f_equal. apply IH; [exact Hrest|].
    intros t Hin [<- | Hf]; [exact (Ho Hin)|].
    apply (Hfresh t); [right; exact Hin | exact Hf].
Qed.

Lemma removeDuplicates_idempotent (options : list string) :
  removeDuplicates (removeDuplicates options) = removeDuplicates options.
Proof.
  unfold removeDuplicates. apply removeDuplicates_from_id.
  - apply removeDuplicates_from_NoDup.
  - intros t _ [].
Qed.

(** Adding an option to refreshed options, or to the options as they
    were, refreshes to the same. *)
Lemma removeDuplicates_snoc (options : list string) (option : string) :
  removeDuplicates (removeDuplicates options ++ [option])
  = removeDuplicates (options ++ [option]).
Proof.
  unfold removeDuplicates. rewrite !removeDuplicates_from_app.
  fold (removeDuplicates options). rewrite removeDuplicates_idempotent.
  unfold removeDuplicates. f_equal. apply removeDuplicates_from_ext.
  intro t. rewrite !in_app_iff, removeDuplicates_from_In. cbn. tauto.
Qed.


(** Selecting an option changes neither the directory nor the viewer, and
    at most refreshes the options. *)
Lemma radioSetSelected_keeps (option : string) (w : World) :
  let a := app (world (radioSetSelected option w)) in
  Channels a = Channels (app w) /\
  CurrentUser a = CurrentUser (app w) /\
  (Options (ChannelsRadioGroup a) = Options (ChannelsRadioGroup (app w)) \/
   Options (ChannelsRadioGroup a)
   = removeDuplicates (Options (ChannelsRadioGroup (app w)))).
Proof.
  unfold radioSetSelected, radioRefresh, radioOnChanged, openChannel,
    loadMessages, emit, bind, getApp, modifyApp, perform, ret. cbn.
  destruct (Selected (ChannelsRadioGroup (app w)) =? option)%string; cbn;
    [repeat split; left; reflexivity|].
  destruct (Connected (app w)), (LoggedIn (app w)); cbn;
    repeat split; right; reflexivity.
Qed.

(** The directory and the options after [openChannelByUser]. *)
Lemma openChannelByUser_run (user : UserPublicInfo) (w : World) :
  let a := app (world (openChannelByUser user w)) in
  let known := (PubId user =? Id (CurrentUser (app w)))
               || isChannelInList (PubId user) (app w) in
  CurrentUser a = CurrentUser (app w) /\
  Channels a =
    (if known then Channels (app w)
     else Channels (app w) ++ [mkChannel (PubId user) (PubUsername user)]) /\
  (if known
   then Options (ChannelsRadioGroup a) = Options (ChannelsRadioGroup (app w)) \/
        Options (ChannelsRadioGroup a)
        = removeDuplicates (Options (ChannelsRadioGroup (app w)))
   else Options (ChannelsRadioGroup a)
        = removeDuplicates (Options (ChannelsRadioGroup (app w)) ++ [PubUsername user])).
Proof.
  cbn zeta. unfold openChannelByUser. rewrite bind_run.
  change (result (getApp w)) with (app w). change (world (getApp w)) with w.
  destruct (PubId user =? Id (CurrentUser (app w))); cbn [orb].
  - rewrite world_mk.
    destruct (radioSetSelected_keeps NOTES_CHANNEL_TITLE w) as (A & B & C).
    auto.
  - rewrite world_mk, bind_run, world_mk.
    match goal with
    | |- context [radioSetSelected ?t ?w1] =>
        destruct (radioSetSelected_keeps t w1) as (A & B & C)
    end.
    cbn zeta in A, B, C. rewrite A, B.
    destruct (isChannelInList (PubId user) (app w)); cbn in *;
      (split; [reflexivity|]); (split; [reflexivity|]).
    + exact C.
    + rewrite removeDuplicates_idempotent in C. destruct C as [C|C]; exact C.
Qed.

(** C6. Opening a channel by user is idempotent on the directory: a second
    call with the same identity leaves the directory, and so its length,
    as the first call left it; and the first call appends the identity
    only when its id is neither the viewer's own nor already present. *)
Theorem openChannelByUser_idempotent (user : UserPublicInfo) (w : World) :
  let w1 := world (openChannelByUser user w) in
  let w2 := world (openChannelByUser user w1) in
  List.length (Channels (app w2)) = List.length (Channels (app w1)) /\
  Channels (app w2) = Channels (app w1) /\
  Channels (app w1) =
    (if (PubId user =? Id (CurrentUser (app w)))
        || isChannelInList (PubId user) (app w)
     then Channels (app w)
     else Channels (app w) ++ [mkChannel (PubId user) (PubUsername user)]).
Proof.
  cbn zeta.
  destruct (openChannelByUser_run user w) as (U1 & C1 & _).
  destruct (openChannelByUser_run user (world (openChannelByUser user w)))
    as (_ & C2 & _).
  cbn zeta in *.
  assert (E : Channels (app (world (openChannelByUser user
                 (world (openChannelByUser user w)))))
              = Channels (app (world (openChannelByUser user w)))).
  { rewrite C2, U1. unfold isChannelInList. rewrite C1.
    destruct (PubId user =? Id (CurrentUser (app w))); [reflexivity|].
    cbn [orb]. unfold isChannelInList.
    destruct (isChannelInList_loop (Channels (app w)) (PubId user)) eqn:K.
    - rewrite K. reflexivity.
    - change (PubId user)
        with (ChanId (mkChannel (PubId user) (PubUsername user))) at 1.
      rewrite isChannelInList_loop_app. reflexivity. }
  rewrite E. repeat split. exact C1.
Qed.

(** ** The displayed channel list *)

Lemma fold_left_titles (channels : list Channel) :
  forall init : list string,
    fold_left (fun acc channel => acc ++ [Title channel]) channels init
    = init ++ map Title channels.
Proof.
  induction channels as [|c rest IH]; intro init; cbn.
  - now rewrite app_nil_r.
  - rewrite IH, <- app_assoc. reflexivity.
Qed.

(** A pushed channel list is displayed after the two implicit entries,
    repeated titles dropped. *)
Lemma onGetChannels_options (channels : list Channel) (w : World) :
  Options (ChannelsRadioGroup (app (world (onGetChannels channels w))))
  = removeDuplicates
      (GROUP_CHANNEL_TITLE :: NOTES_CHANNEL_TITLE :: map Title channels).
Proof.
  unfold onGetChannels. rewrite !bind_run, !world_mk.
  set (w1 := world (refreshChannelList (world (modifyApp (setChannels channels) w)))).
  assert (E : Options (ChannelsRadioGroup (app w1))
              = removeDuplicates
                  (GROUP_CHANNEL_TITLE :: NOTES_CHANNEL_TITLE :: map Title channels)).
  { subst w1.
    unfold refreshChannelList, radioRefresh, bind, getApp, modifyApp, perform.
    cbn -[removeDuplicates]. now rewrite fold_left_titles. }
  change (world (getApp w1)) with w1. change (result (getApp w1)) with (app w1).
  destruct (CurrentChatId (app w1) =? GROUP_CHAT_ID); cbn [when].
  - destruct (radioSetSelected_keeps GROUP_CHANNEL_TITLE w1) as (_ & _ & K).
    cbn zeta in K. rewrite E, removeDuplicates_idempotent in K.
    destruct K as [K|K]; exact K.
  - exact E.
Qed.




(** ** Actions without a session *)




(** * Further properties of the code *)

(** ** [connect] *)

(** X1. Whatever the network answers and whether or not it is a retry,
    [connect] sleeps its one settle second, dials exactly once and emits
    nothing to the transport; it returns true exactly when the dial and
    both lifecycle registrations succeed; a run that returns false leaves
    the application record as it was, and a run that returns true changes
    only the transport handle and the connection flag; the retry loop is
    started exactly when the dial itself fails on a first attempt. *)
Theorem connect_outcome (host : string) (port : Z) (isReconnect : bool) (w : World) :
  let r := connect host port isReconnect w in
  let o := network w (dialed w) in
  result r = connectSucceeds o /\
  elapsed (effects r) = Second /\
  dialCount (effects r) = 1%nat /\
  emits (effects r) = [] /\
  spawnCount (effects r) = (if dialFails o && negb isReconnect then 1 else 0)%nat /\
  app (world r) =
    (if result r
     then setConnected true (setClient (Some (dialed w)) (app w))
     else app w) /\
  settingsFile (world r) = settingsFile w /\
  settingsWritable (world r) = settingsWritable w.
Proof.
  unfold connect, bind, dial, perform, when, showError, ret. cbn.
  destruct (network w (dialed w)) as [err|[e1|] [e2|]], isReconnect; cbn;
    repeat split.
Qed.

(** X2. [connect] registers at most one handler per event name; when it
    returns true it has registered the two lifecycle handlers and then the
    six handlers of the chat events, in this order. *)
Theorem connect_registrations (host : string) (port : Z) (isReconnect : bool) (w : World) :
  let r := connect host port isReconnect w in
  NoDup (registrations (effects r)) /\
  (if result r
   then registrations (effects r) =
        [On OnDisconnection; On OnConnection;
         On "/failed-login"; On "/failed-registeration"; On "/login";
         On "/message"; On "/get-messages"; On "/get-channels"]
   else (List.length (registrations (effects r)) <= 2)%nat).
Proof.
  unfold connect, bind, dial, perform, when, showError, ret. cbn.
  destruct (network w (dialed w)) as [err|[e1|] [e2|]], isReconnect; cbn;
    (split; [| first [reflexivity | lia]]);
    repeat (constructor; [cbn; intuition discriminate|]); constructor.
Qed.

(** X3. When the dial succeeds and a lifecycle registration fails,
    [connect] returns false and shows that registration error, once; it
    stores no handle, does not mark the application connected, and starts
    no retry loop, even on a first attempt. *)
Theorem connect_registration_failure (host : string) (port : Z) (isReconnect : bool)
        (w : World) (e1 e2 : option string) (err : string) :
  network w (dialed w) = DialOk e1 e2 ->
  e1 = Some err \/ (e1 = None /\ e2 = Some err) ->
  let r := connect host port isReconnect w in
  result r = false /\
  notifications (effects r) = [ShowError err] /\
  spawnCount (effects r) = 0%nat /\
  app (world r) = app w.
Proof.
  intros Hnet Herr.
  unfold connect, bind, dial, perform, when, showError, ret. cbn.
  rewrite Hnet.
  destruct Herr as [-> | (-> & ->)]; cbn; repeat split.
Qed.

(** Witness of X3. *)
Lemma connect_registration_failure_witness :
  result (connect DEFAULT_HOST DEFAULT_PORT false brokenRegistration) = false /\
  notifications (effects (connect DEFAULT_HOST DEFAULT_PORT false brokenRegistration))
  = [ShowError "not a function"] /\
  spawnCount (effects (connect DEFAULT_HOST DEFAULT_PORT false brokenRegistration))
  = 0%nat.
Proof.
  destruct (connect_registration_failure DEFAULT_HOST DEFAULT_PORT false
              brokenRegistration (Some "not a function") None "not a function")
    as (A & B & C & _).
  - reflexivity.
  - left. reflexivity.
  - exact (conj A (conj B C)).
Defined.

(** ** The retry loop *)

(** What a retry changes and performs besides dialling. *)
Lemma connect_retry_quiet (host : string) (port : Z) (w : World) :
  let r := connect host port true w in
  emits (effects r) = [] /\
  spawnCount (effects r) = 0%nat /\
  app (world r) =
    (if result r
     then setConnected true (setClient (Some (dialed w)) (app w))
     else app w) /\
  settingsFile (world r) = settingsFile w /\
  (forall h p, In (Dial h p) (effects r) -> (h, p) = (host, port)).
Proof.
  unfold connect, bind, dial, perform, when, showError, ret. cbn.
  destruct (network w (dialed w)) as [err|[e1|] [e2|]]; cbn;
    repeat split; intros h p Hin;
    repeat (destruct Hin as [Hin|Hin]; try discriminate Hin;
            try (injection Hin as <- <-; reflexivity));
    contradiction.
Qed.

Lemma pause_quiet (i : Z) :
  emits (pause i) = [] /\ spawnCount (pause i) = 0%nat /\
  (forall h p, ~ In (Dial h p) (pause i)).
Proof.
  unfold pause. destruct (i =? 0); repeat split; intros h p Hin;
    repeat (destruct Hin as [Hin|Hin]; try discriminate Hin); contradiction.
Qed.

Lemma sumTo_nonneg (k : nat) : 0 <= sumTo k.
Proof. induction k as [|k IH]; cbn [sumTo]; lia. Qed.

Section RetryLoopMore.
Context `{Json}.

Lemma reconnectionLoop_quiet (n : nat) :
  forall (i : Z) (w : World),
    emits (effects (reconnectionLoop n i w)) = [] /\
    spawnCount (effects (reconnectionLoop n i w)) = 0%nat.
Proof.
  induction n as [|n IH]; intros i w; [split; reflexivity|].
  rewrite reconnectionLoop_step.
  destruct (pause_quiet i) as (PE & PS & _).
  match goal with
  | |- context [connect ?h ?p true ?w0] =>
      destruct (connect_retry_quiet h p w0) as (CE & CS & _);
      set (r1 := connect h p true w0) in *
  end.
  cbn zeta in CE, CS. destruct (IH (i + 1) (world r1)) as (E2 & S2).
  unfold emits, spawnCount in *.
  destruct (result r1); rewrite !effects_mk, !filter_app, !length_app.
  - rewrite PE, CE, PS, CS. split; reflexivity.
  - rewrite PE, CE, E2, PS, CS, S2. split; reflexivity.
Qed.

Lemma reconnectionLoop_app (n : nat) :
  forall (i : Z) (w : World),
    app (world (reconnectionLoop n i w)) = app w \/
    exists client,
      app (world (reconnectionLoop n i w))
      = setConnected true (setClient (Some client) (app w)).
Proof.
  induction n as [|n IH]; intros i w; [left; reflexivity|].
  rewrite reconnectionLoop_step.
  destruct (getHostDataFromSettingsFile_quiet w) as (_ & A0 & _).
  match goal with
  | |- context [connect ?h ?p true ?w0] =>
      destruct (connect_retry_quiet h p w0) as (_ & _ & CA & _);
      set (r1 := connect h p true w0) in *
  end.
  cbn zeta in CA. rewrite A0 in CA.
  destruct (result r1); rewrite world_mk.
  - right. eexists. exact CA.
  - rewrite <- CA. apply IH.
Qed.

Lemma reconnectionLoop_elapsed (n : nat) :
  forall (i : Z) (w : World),
    0 <= i ->
    elapsed (effects (reconnectionLoop n i w))
    <= Z.of_nat n * (i * Minute + Second) + sumTo (pred n) * Minute /\
    ((forall j, (j < n)%nat -> connectSucceeds (network w (dialed w + j)) = false) ->
     elapsed (effects (reconnectionLoop n i w))
     = Z.of_nat n * (i * Minute + Second) + sumTo (pred n) * Minute).
Proof.
  assert (Hsec : 0 < Second) by reflexivity.
  assert (Hmin : 0 < Minute) by reflexivity.
  induction n as [|n IH]; intros i w Hi; [split; [cbn; lia | reflexivity]|].
  rewrite reconnectionLoop_step.
  destruct (iteration_connect w) as (R & N & D & _).
  pose proof (pause_elapsed i) as PE. unfold minutes in PE.
  match goal with
  | |- context [connect ?h ?p true ?w0] =>
      destruct (connect_retry_run h p w0) as (_ & _ & _ & _ & CE & _);
      set (r1 := connect h p true w0) in *
  end.
  cbn zeta in CE.
  destruct (IH (i + 1) (world r1)) as (B2 & E2); [lia|].
  assert (S1 : sumTo (pred (S n)) = sumTo (pred n) + Z.of_nat n).
  { destruct n; reflexivity. }
  pose proof (sumTo_nonneg (pred n)) as Hs.
  rewrite S1, Nat2Z.inj_succ.
  unfold Duration in *.
  split.
  - assert (Him : 0 <= i * Minute) by nia.
    assert (Hn : 0 <= Z.of_nat n * (i * Minute + Second)) by nia.
    assert (Hn1 : 0 <= Z.of_nat n * ((i + 1) * Minute + Second)) by nia.
    destruct (result r1); rewrite effects_mk, !elapsed_app, PE, CE.
    + change (elapsed [restored]) with 0. nia.
    + nia.
  - intro Hall.
    pose proof (Hall 0%nat ltac:(lia)) as H0.
    rewrite Nat.add_0_r in H0. rewrite H0 in R. rewrite R.
    rewrite effects_mk, !elapsed_app, PE, CE, E2; [ring|].
    intros j Hj. rewrite N, D.
    replace (S (dialed w) + j)%nat with (dialed w + S j)%nat by lia.
    apply Hall. lia.
Qed.

(** X4. The retry loop, whatever happens, emits nothing to the transport
    (a restored connection is not followed by a new login) and never
    starts a second retry loop. *)
Theorem startReconnectionTrying_quiet (w : World) :
  emits (effects (startReconnectionTrying w)) = [] /\
  spawnCount (effects (startReconnectionTrying w)) = 0%nat.
Proof.
  rewrite startReconnectionTrying_run, effects_mk.
  destruct (reconnectionLoop_quiet 10 0 w) as (E & S).
  unfold emits, spawnCount in *. cbn [filter isEmit isSpawn].
  rewrite E, S. split; reflexivity.
Qed.

(** X5. The retry loop leaves the session as it was: after it the
    application record is either unchanged, or differs only by a new
    transport handle and the connection flag set. *)
Theorem startReconnectionTrying_keeps_session (w : World) :
  let a := app (world (startReconnectionTrying w)) in
  sameSession a (app w) /\
  (a = app w \/
   exists client, a = setConnected true (setClient (Some client) (app w))).
Proof.
  cbn zeta. rewrite startReconnectionTrying_run, world_mk.
  destruct (reconnectionLoop_app 10 0 w) as [E | (client & E)]; rewrite E.
  - split; [repeat split | left; reflexivity].
  - split; [repeat split | right; exists client; reflexivity].
Qed.

(** X6. The retry loop never sleeps more than 45 minutes and 20 seconds
    in all (the initial ten seconds, 1 + ... + 9 minutes and ten settle
    seconds), and it sleeps exactly that long when no attempt connects. *)
Theorem startReconnectionTrying_gives_up (w : World) :
  elapsed (effects (startReconnectionTrying w)) <= 45 * Minute + 20 * Second /\
  ((forall j, (j < 10)%nat -> connectSucceeds (network w (dialed w + j)) = false) ->
   elapsed (effects (startReconnectionTrying w)) = 45 * Minute + 20 * Second).
Proof.
  rewrite startReconnectionTrying_run, effects_mk. cbn [elapsed].
  destruct (reconnectionLoop_elapsed 10 0 w) as (B & E); [lia|].
  change (sumTo (pred 10)) with 45 in *.
  change (Z.of_nat 10) with 10 in *.
  unfold Duration in *.
  split; [lia|]. intro Hall. rewrite (E Hall). ring.
Qed.

End RetryLoopMore.

(** Witness of X6: a server that refuses every dial. *)
Lemma startReconnectionTrying_gives_up_witness :
  elapsed (effects (startReconnectionTrying offlineWorld)) = 45 * Minute + 20 * Second.
Proof.
  destruct (startReconnectionTrying_gives_up offlineWorld) as (_ & E).
  apply E. intros j _. reflexivity.
Defined.

(** ** The configured host *)

Section ConfiguredHost.
Context `{Json}.

(** What a load returns depends on the settings file alone. *)
Lemma getHostDataFromSettingsFile_by_file (w1 w2 : World) :
  settingsFile w1 = settingsFile w2 ->
  result (getHostDataFromSettingsFile w1) = result (getHostDataFromSettingsFile w2).
Proof.
  intro E.
  unfold getHostDataFromSettingsFile, saveDefaultHostSettings,
    writeSettingsFile, readSettingsFile, bind, ret.
  rewrite E. destruct (settingsFile w2) as [f|].
  - destruct (json_Unmarshal f); [reflexivity|].
    destruct (settingsWritable w1), (settingsWritable w2); reflexivity.
  - destruct (settingsWritable w1), (settingsWritable w2); reflexivity.
Qed.

(** A file that parses is returned as it reads and left alone. *)
Lemma getHostDataFromSettingsFile_valid (w : World) (f : string) (hostData : HostData) :
  settingsFile w = Some f ->
  json_Unmarshal f = Some hostData ->
  getHostDataFromSettingsFile w = ((Host hostData, Port hostData), w, []).
Proof.
  intros Hf Hu.
  unfold getHostDataFromSettingsFile, readSettingsFile, bind, ret.
  rewrite Hf, Hu. reflexivity.
Qed.

Variable bytes : string.
Hypothesis marshal_default :
  json_Marshal (mkHostData DEFAULT_HOST DEFAULT_PORT) = Some bytes.
Hypothesis unmarshal_default :
  json_Unmarshal bytes = Some (mkHostData DEFAULT_HOST DEFAULT_PORT).

(** A file that cannot be read or does not parse yields the default, and
    the encoded default is stored when the file can be written. *)
Lemma getHostDataFromSettingsFile_invalid (w : World) :
  settingsFile w = None \/
  (exists f, settingsFile w = Some f /\ json_Unmarshal f = None) ->
  getHostDataFromSettingsFile w =
  ((DEFAULT_HOST, DEFAULT_PORT),
   (if settingsWritable w
    then mkWorld (app w) (Some bytes) (settingsWritable w) (network w) (dialed w)
    else w),
   []).
Proof.
  intro Hbad.
  unfold getHostDataFromSettingsFile, saveDefaultHostSettings,
    writeSettingsFile, readSettingsFile, bind, ret.
  rewrite marshal_default.
  destruct Hbad as [-> | (f & -> & ->)];
    destruct (settingsWritable w); reflexivity.
Qed.

(** With a codec that reads back its encoding of the default, a second
    load returns what the first returned. *)
Lemma getHostDataFromSettingsFile_stable (w : World) :
  result (getHostDataFromSettingsFile (world (getHostDataFromSettingsFile w)))
  = result (getHostDataFromSettingsFile w).
Proof.
  assert (Hcases : (exists f hostData,
                       settingsFile w = Some f /\ json_Unmarshal f = Some hostData) \/
                   (settingsFile w = None \/
                    exists f, settingsFile w = Some f /\ json_Unmarshal f = None)).
  { destruct (settingsFile w) as [f|]; [|right; left; reflexivity].
    destruct (json_Unmarshal f) as [hostData|] eqn:Hu.
    - left. exists f, hostData. split; [reflexivity | exact Hu].
    - right. right. exists f. split; [reflexivity | exact Hu]. }
  destruct Hcases as [(f & hostData & Hf & Hu) | Hbad].
  - rewrite (getHostDataFromSettingsFile_valid w f hostData Hf Hu), world_mk.
    rewrite (getHostDataFromSettingsFile_valid w f hostData Hf Hu). reflexivity.
  - rewrite (getHostDataFromSettingsFile_invalid w Hbad), world_mk, result_mk.
    destruct (settingsWritable w).
    + match goal with
      | |- result (getHostDataFromSettingsFile ?w') = _ =>
          rewrite (getHostDataFromSettingsFile_valid w' bytes
                     (mkHostData DEFAULT_HOST DEFAULT_PORT) eq_refl unmarshal_default)
      end.
      reflexivity.
    + rewrite (getHostDataFromSettingsFile_invalid w Hbad). reflexivity.
Qed.

Lemma reconnectionLoop_dials_configured (n : nat) :
  forall (i : Z) (w : World) (h : string) (p : Z),
    In (Dial h p) (effects (reconnectionLoop n i w)) ->
    (h, p) = result (getHostDataFromSettingsFile w).
Proof.
  induction n as [|n IH]; intros i w h p Hin; [destruct Hin|].
  rewrite reconnectionLoop_step in Hin.
  destruct (pause_quiet i) as (_ & _ & PD).
  match type of Hin with
  | context [connect ?h0 ?p0 true ?w0] =>
      destruct (connect_retry_quiet h0 p0 w0) as (_ & _ & _ & CF & CD);
      set (r1 := connect h0 p0 true w0) in *
  end.
  cbn zeta in CF, CD.
  assert (Hr1 : In (Dial h p) (effects r1) ->
                (h, p) = result (getHostDataFromSettingsFile w)).
  { intro Hc. rewrite (CD h p Hc).
    destruct (result (getHostDataFromSettingsFile w)); reflexivity. }
  destruct (result r1); rewrite effects_mk in Hin;
    apply in_app_or in Hin as [Hin|Hin]; try (exfalso; exact (PD h p Hin));
    apply in_app_or in Hin as [Hin|Hin]; try exact (Hr1 Hin).
  - destruct Hin as [Hin|[]]. discriminate Hin.
  - apply IH in Hin. rewrite Hin.
    rewrite (getHostDataFromSettingsFile_by_file _ _ CF).
    apply getHostDataFromSettingsFile_stable.
Qed.

(** X7. With a codec that reads back its encoding of the default, every
    dial of the retry loop goes to the host and port that loading the
    settings yields when the loop starts: the configured ones when the
    file parses, the default ones otherwise. *)
Theorem startReconnectionTrying_dials_configured (w : World) (h : string) (p : Z) :
  In (Dial h p) (effects (startReconnectionTrying w)) ->
  (h, p) = result (getHostDataFromSettingsFile w).
Proof.
  rewrite startReconnectionTrying_run, effects_mk.
  intros [Hin|Hin]; [discriminate Hin|].
  exact (reconnectionLoop_dials_configured 10 0 w h p Hin).
Qed.
End ConfiguredHost.

(** Witness of X7: a settings file naming chat.example:4000. *)
Lemma startReconnectionTrying_dials_configured_witness :
  ("chat.example", 4000) = result (getHostDataFromSettingsFile configuredWorld).
Proof.
  apply (startReconnectionTrying_dials_configured
           (String (ascii_of_nat 123)
              (dq ++ "host" ++ dq ++ ":" ++ dq ++ "localhost" ++ dq ++ "," ++
               dq ++ "port" ++ dq ++ ":3811}")%string)).
  - vm_compute. reflexivity.
  - vm_compute. reflexivity.
  - vm_compute. right. right. left. reflexivity.
Defined.

(** X8. Loading the settings performs no effect and never touches the
    application record; a file that parses is returned as it reads and is
    never rewritten. *)
Theorem getHostDataFromSettingsFile_reads `{Json} (w : World) :
  effects (getHostDataFromSettingsFile w) = [] /\
  app (world (getHostDataFromSettingsFile w)) = app w /\
  (forall f hostData,
      settingsFile w = Some f ->
      json_Unmarshal f = Some hostData ->
      result (getHostDataFromSettingsFile w) = (Host hostData, Port hostData) /\
      world (getHostDataFromSettingsFile w) = w).
Proof.
  destruct (getHostDataFromSettingsFile_quiet w) as (E & A & _).
  split; [exact E|]. split; [exact A|].
  intros f hostData Hf Hu.
  rewrite (getHostDataFromSettingsFile_valid w f hostData Hf Hu).
  split; reflexivity.
Qed.

(** Witness of X8. *)
Lemma getHostDataFromSettingsFile_reads_witness :
  result (getHostDataFromSettingsFile configuredWorld) = ("chat.example", 4000) /\
  world (getHostDataFromSettingsFile configuredWorld) = configuredWorld.
Proof.
  destruct (getHostDataFromSettingsFile_reads configuredWorld) as (_ & _ & V).
  apply (V (String (ascii_of_nat 123)
              (dq ++ "host" ++ dq ++ ":" ++ dq ++ "chat.example" ++ dq ++ "," ++
               dq ++ "port" ++ dq ++ ":4000}")%string)
           (mkHostData "chat.example" 4000)).
  - reflexivity.
  - vm_compute. reflexivity.
Defined.

(** X9. [main] leaves the application record as [init] builds it, loads
    the settings, starts exactly one connect goroutine, for the loaded host
    and port and as a first attempt, and hands over to the window. When the
    dial of that connect fails, it returns false, shows the failure for
    that host and port with its description, and starts the retry loop
    once. *)
Theorem main_first_attempt `{Json} (w : World) :
  let hostData := result (getHostDataFromSettingsFile w) in
  let r := main w in
  app (world r) = initApp /\
  effects r = [GoConnect (fst hostData) (snd hostData) false; ShowAndRun] /\
  network (world r) = network w /\
  dialed (world r) = dialed w /\
  (forall err,
      network w (dialed w) = DialFails err ->
      let c := connect (fst hostData) (snd hostData) false (world r) in
      result c = false /\
      effects c =
        [Sleep (1 * Second); Dial (fst hostData) (snd hostData);
         ShowError
           ("Can't connect to host " ++ dq ++ fst hostData ++ ":" ++
            fmt_d (snd hostData) ++ dq ++ nl ++
            "Next try after: 10 sec" ++ nl ++
            "Description: " ++ err ++ nl)%string;
         GoStartReconnectionTrying]).
Proof.
  cbn zeta. unfold main. rewrite !bind_run.
  set (w0 := world (init w)).
  assert (E0 : result (getHostDataFromSettingsFile w0)
               = result (getHostDataFromSettingsFile w))
    by (apply getHostDataFromSettingsFile_by_file; reflexivity).
  destruct (getHostDataFromSettingsFile_quiet w0) as (Q & A0 & N0 & D0).
  rewrite !world_mk, !effects_mk, Q, E0.
  destruct (result (getHostDataFromSettingsFile w)) as [host port].
  cbn [fst snd].
  set (w1 := world (getHostDataFromSettingsFile w0)) in *.
  change (world ((perform (GoConnect host port false) ;; showWindow) w1)) with w1.
  change (network w0) with (network w) in N0.
  change (dialed w0) with (dialed w) in D0.
  split; [exact A0|]. split; [reflexivity|]. split; [exact N0|]. split; [exact D0|].
  intros err Hfail.
  unfold connect, bind, dial, perform, when, showError, ret.
  cbn [world result effects fst snd]. rewrite N0, D0, Hfail.
  split; reflexivity.
Qed.

(** Witness of X9: no settings file and a server that refuses the dial. *)
Lemma main_first_attempt_witness :
  effects (main offlineWorld) = [GoConnect DEFAULT_HOST DEFAULT_PORT false; ShowAndRun] /\
  result (connect DEFAULT_HOST DEFAULT_PORT false (world (main offlineWorld))) = false.
Proof.
  destruct (main_first_attempt offlineWorld) as (_ & E & _ & _ & F).
  destruct (F "connection refused" eq_refl) as (R & _).
  exact (conj E R).
Defined.

(** ** The directory *)

Lemma isChannelInList_loop_In (l : list Channel) (channelId : Z) :
  isChannelInList_loop l channelId = true <-> In channelId (map ChanId l).
Proof.
  induction l as [|c l IH]; cbn.
  - split; [discriminate | contradiction].
  - destruct (Z.eqb_spec (ChanId c) channelId) as [E|N].
    + split; [left; exact E | reflexivity].
    + rewrite IH. split; [right; assumption | intros [E|Hin]; [contradiction | exact Hin]].
Qed.

Lemma NoDup_snoc {A} (l : list A) (x : A) :
  NoDup l -> ~ In x l -> NoDup (l ++ [x]).
Proof.
  induction l as [|y l IH]; intros Hl Hx; cbn.
  - constructor; [intros [] | constructor].
  - inversion Hl as [|? ? Hy Hl']; subst. constructor.
    + intro Hin. apply in_app_or in Hin as [Hin|[E|[]]]; [exact (Hy Hin)|].
      apply Hx. left. symmetry. exact E.
    + apply IH; [exact Hl'|]. intro Hin. apply Hx. right. exact Hin.
Qed.

(** X10. [isChannelInList] answers true exactly for the ids of the known
    channels; on an empty directory it answers false for every id. *)
Theorem isChannelInList_reflects (channelId : Z) (a : ChatApplication) :
  isChannelInList channelId a = true <->
  exists c, In c (Channels a) /\ ChanId c = channelId.
Proof.
  unfold isChannelInList. rewrite isChannelInList_loop_In, in_map_iff.
  split; intros (c & H1 & H2); exists c; auto.
Qed.

(** X11. [openChannelByUser] keeps the ids of the directory pairwise
    distinct, and never enters the viewer's own id into a directory that
    does not have it. *)
Theorem openChannelByUser_keeps_ids_distinct (user : UserPublicInfo) (w : World) :
  NoDup (map ChanId (Channels (app w))) ->
  let a := app (world (openChannelByUser user w)) in
  NoDup (map ChanId (Channels a)) /\
  (~ In (Id (CurrentUser (app w))) (map ChanId (Channels (app w))) ->
   ~ In (Id (CurrentUser a)) (map ChanId (Channels a))).
Proof.
  intros Hnd. cbn zeta.
  destruct (openChannelByUser_run user w) as (U & C & _). cbn zeta in U, C.
  rewrite U, C.
  destruct (Z.eqb_spec (PubId user) (Id (CurrentUser (app w)))) as [E|N];
    cbn [orb]; [split; auto|].
  destruct (isChannelInList (PubId user) (app w)) eqn:K; [split; auto|].
  assert (Hnew : ~ In (PubId user) (map ChanId (Channels (app w)))).
  { intro Hin. apply isChannelInList_loop_In in Hin.
    unfold isChannelInList in K. congruence. }
  rewrite map_app. cbn [map ChanId]. split.
  - apply NoDup_snoc; assumption.
  - intros Hv Hin. apply in_app_or in Hin as [Hin|[E|[]]]; [exact (Hv Hin)|].
    apply N. exact E.
Qed.

(** Witness of X11: viewer 7 with bob known opens carol's channel. *)
Lemma openChannelByUser_keeps_ids_distinct_witness :
  NoDup (map ChanId (Channels (app (world
    (openChannelByUser (mkUserPublicInfo 11 "carol")
                       (session 0 [mkChannel 9 "bob"] [])))))).
Proof.
  apply (openChannelByUser_keeps_ids_distinct (mkUserPublicInfo 11 "carol")
           (session 0 [mkChannel 9 "bob"] [])).
  cbn. constructor; [intros [] | constructor].
Defined.

(** X12. [openChannelByUser] only ever appends: the directory it finds is
    a prefix of the directory it leaves, at most one channel longer; and a
    user other than the viewer is a known channel afterwards. *)
Theorem openChannelByUser_appends (user : UserPublicInfo) (w : World) :
  let a := app (world (openChannelByUser user w)) in
  (exists added,
      Channels a = Channels (app w) ++ added /\ (List.length added <= 1)%nat) /\
  (if PubId user =? Id (CurrentUser (app w)) then Channels a = Channels (app w)
   else isChannelInList (PubId user) a = true).
Proof.
  cbn zeta.
  destruct (openChannelByUser_run user w) as (_ & C & _). cbn zeta in C.
  unfold isChannelInList. rewrite C.
  destruct (PubId user =? Id (CurrentUser (app w))); cbn [orb].
  - split; [exists []; rewrite app_nil_r; split; [reflexivity | cbn; lia] | reflexivity].
  - destruct (isChannelInList (PubId user) (app w)) eqn:K.
    + split; [exists []; rewrite app_nil_r; split; [reflexivity | cbn; lia] | exact K].
    + split; [eexists; split; [reflexivity | cbn; lia]|].
      exact (isChannelInList_loop_app (Channels (app w))
               (mkChannel (PubId user) (PubUsername user))).
Qed.

Lemma onGetChannels_channels (channels : list Channel) (w : World) :
  Channels (app (world (onGetChannels channels w))) = channels.
Proof.
  unfold onGetChannels. rewrite !bind_run, !world_mk.
  set (w1 := world (refreshChannelList (world (modifyApp (setChannels channels) w)))).
  assert (E : Channels (app w1) = channels) by reflexivity.
  change (world (getApp w1)) with w1. change (result (getApp w1)) with (app w1).
  destruct (CurrentChatId (app w1) =? GROUP_CHAT_ID); cbn [when].
  - destruct (radioSetSelected_keeps GROUP_CHANNEL_TITLE w1) as (K & _).
    cbn zeta in K. rewrite K. exact E.
  - exact E.
Qed.

(** X13. The displayed options follow the directory: after every pushed
    channel list the options are the two implicit entries and then the
    title of every known channel in directory order, a title that has
    occurred before being dropped, and [openChannelByUser] keeps them
    so. *)
Theorem options_follow_directory (w : World) :
  (forall channels, aligned (app (world (onGetChannels channels w)))) /\
  (aligned (app w) ->
   forall user, aligned (app (world (openChannelByUser user w)))).
Proof.
  unfold aligned. split.
  - intro channels.
    rewrite onGetChannels_options, onGetChannels_channels. reflexivity.
  - intros Ha user.
    destruct (openChannelByUser_run user w) as (_ & C & O). cbn zeta in C, O.
    rewrite C.
    destruct ((PubId user =? Id (CurrentUser (app w)))
              || isChannelInList (PubId user) (app w)).
    + destruct O as [-> | ->]; rewrite Ha;
        [reflexivity | apply removeDuplicates_idempotent].
    + rewrite O, Ha, removeDuplicates_snoc, map_app. reflexivity.
Qed.

(** Witness of X13: a pushed list, then an ad-hoc channel. *)
Lemma options_follow_directory_witness :
  aligned (app (world
    (openChannelByUser (mkUserPublicInfo 11 "carol")
       (world (onGetChannels [mkChannel 9 "bob"] (session 0 [] [])))))).
Proof.
  destruct (options_follow_directory
              (world (onGetChannels [mkChannel 9 "bob"] (session 0 [] []))))
    as (_ & P).
  apply P. reflexivity.
Defined.

(** X14. When the titles of the directory are pairwise distinct, every
    known channel is reached by its title: resolving the title of a known
    channel returns that channel's id. *)
Theorem getChannelId_distinct_titles (a : ChatApplication) (c : Channel) :
  NoDup (map Title (Channels a)) ->
  In c (Channels a) ->
  getChannelId (Title c) a = ChanId c.
Proof.
  intros Hnd Hin. apply in_split in Hin as (before & after & E).
  unfold getChannelId. rewrite E in *.
  rewrite map_app in Hnd. cbn [map] in Hnd.
  apply NoDup_remove_2 in Hnd.
  rewrite (lookupTitle_first before after c (Title c) eq_refl); [reflexivity|].
  intros c' Hc' Et. apply Hnd, in_or_app. left.
  rewrite <- Et. apply in_map. exact Hc'.
Qed.

(** Witness of X14: a directory with bob and carol. *)
Lemma getChannelId_distinct_titles_witness :
  getChannelId "carol"
    (app (session 0 [mkChannel 9 "bob"; mkChannel 11 "carol"] [])) = 11.
Proof.
  apply (getChannelId_distinct_titles
           (app (session 0 [mkChannel 9 "bob"; mkChannel 11 "carol"] []))
           (mkChannel 11 "carol")).
  - cbn. repeat constructor; cbn; intuition discriminate.
  - right. left. reflexivity.
Defined.

(** ** Messages and the open channel *)

Lemma ltb_snoc {A} (l : list A) (x : A) :
  Nat.ltb (List.length l) (List.length (l ++ [x])) = true.
Proof. rewrite length_app. cbn. apply Nat.ltb_lt. lia. Qed.

(** X15. On a group message and on a message written by the viewer (a
    note included) the handlers of the two revisions do the same; they
    can only differ on a private message written by someone else. *)
Theorem revisions_agree (m : SavedMessage) (w : World) :
  ChatId m = GROUP_CHAT_ID \/ PubId (UserData m) = Id (CurrentUser (app w)) ->
  onMessage m w = onMessage_earlier m w.
Proof.
  intro Hm.
  unfold onMessage, onMessage_earlier, getChatType, addMessageToList, bind,
    getApp, modifyApp, perform, when, ret.
  split_eqb; cbn; try reflexivity; destruct Hm; congruence.
Qed.

(** Witness of X15: the viewer's own message to user 9, channel 9 open. *)
Lemma revisions_agree_witness :
  onMessage (message 7 9) (session 9 [] [])
  = onMessage_earlier (message 7 9) (session 9 [] []).
Proof.
  apply revisions_agree. right. reflexivity.
Defined.

(** X16. Once the channel of another user [c] is opened, an inbound
    message is displayed exactly when it belongs to the conversation with
    [c]: written by the viewer to [c], or written by [c] to the viewer. *)
Theorem conversation_view (c : Z) (m : SavedMessage) (w : World) :
  c <> GROUP_CHAT_ID ->
  c <> Id (CurrentUser (app w)) ->
  Id (CurrentUser (app w)) <> GROUP_CHAT_ID ->
  displays onMessage m (world (openChannel c w)) =
  ((PubId (UserData m) =? Id (CurrentUser (app w))) && (ChatId m =? c))
  || ((PubId (UserData m) =? c) && (ChatId m =? Id (CurrentUser (app w)))).
Proof.
  intros Hg Hv Hvg.
  unfold displays, onMessage, openChannel, loadMessages, emit, getChatType,
    bind, getApp, modifyApp, perform, when, ret.
  unfold addMessageToList, bind, modifyApp, perform.
  cbn -[Nat.ltb]. destruct (Connected (app w)), (LoggedIn (app w)); cbn -[Nat.ltb];
    split_eqb; cbn -[Nat.ltb]; rewrite ?ltb_snoc, ?Nat.ltb_irrefl;
    try reflexivity; congruence.
Qed.

(** Witness of X16: viewer 7 opens the channel of user 9; a message of 9
    to 7 is displayed. *)
Lemma conversation_view_witness :
  displays onMessage (message 9 7) (world (openChannel 9 (session 0 [] []))) = true.
Proof.
  rewrite (conversation_view 9 (message 9 7) (session 0 [] []));
    [reflexivity | discriminate | discriminate | discriminate].
Defined.

(** X17. A successful login resets the view whatever it was: the displayed
    list is emptied, the group channel becomes the open one, and the
    channel list is requested for the user who has just logged in. A
    message sent next is emitted in that user's name to the group channel
    when the client is connected, and refused as not connected
    otherwise. *)
Theorem login_resets_view (user : User) (text : string) (w : World) :
  let w1 := world (onLogin user w) in
  MessagesList (app w1) = [] /\
  CurrentChatId (app w1) = GROUP_CHAT_ID /\
  CurrentUser (app w1) = user /\
  emits (effects (onLogin user w)) = [Emit "/get-channels" (ChannelsRequest user)] /\
  effects (sendMessage text w1) =
    (if Connected (app w)
     then [Emit "/message" (Message user GROUP_CHAT_ID text)]
     else [ShowError "You are not connected to the server."]).
Proof.
  unfold onLogin, clearMessagesList, loadChannels, sendMessage, emit, showError,
    bind, getApp, modifyApp, perform, ret.
  cbn. destruct (Connected (app w)); repeat split.
Qed.

(** X18. After a failed login, and equally after a failed registration,
    the client counts as logged out even if it was logged in before:
    sending is refused with "You are not logged in." and loading a
    channel does nothing, while the viewer and the open channel are kept.
    The two handlers leave the same world and differ only in the dialog
    they reopen. *)
Theorem failure_logs_out (description text : string) (chatId : Z) (w : World) :
  let w1 := world (onFailedLogin description w) in
  world (onFailedRegistration description w) = w1 /\
  effects (onFailedLogin description w) = [ShowLoginDialog description] /\
  effects (onFailedRegistration description w) = [ShowRegisterDialog description] /\
  effects (sendMessage text w1) = [ShowError "You are not logged in."] /\
  effects (loadMessages chatId w1) = [] /\
  CurrentUser (app w1) = CurrentUser (app w) /\
  CurrentChatId (app w1) = CurrentChatId (app w).
Proof.
  unfold onFailedLogin, onFailedRegistration, sendMessage, loadMessages,
    emit, showError, bind, getApp, modifyApp, perform, ret.
  cbn. destruct (Connected (app w)); repeat split.
Qed.

(** X19. A channel list pushed while a channel other than the group is
    open changes neither the open channel nor the selection and requests
    nothing; the directory becomes the pushed list. *)
Theorem onGetChannels_keeps_open_channel (channels : list Channel) (w : World) :
  CurrentChatId (app w) <> GROUP_CHAT_ID ->
  let r := onGetChannels channels w in
  CurrentChatId (app (world r)) = CurrentChatId (app w) /\
  Selected (ChannelsRadioGroup (app (world r)))
  = Selected (ChannelsRadioGroup (app w)) /\
  Channels (app (world r)) = channels /\
  emits (effects r) = [].
Proof.
  intro Hopen.
  unfold onGetChannels, refreshChannelList, bind, getApp, modifyApp, perform,
    when, ret.
  cbn. destruct (Z.eqb_spec (CurrentChatId (app w)) GROUP_CHAT_ID) as [E|_];
    [contradiction|].
  cbn. repeat split.
Qed.

(** Witness of X19: viewer 7 with channel 9 open. *)
Lemma onGetChannels_keeps_open_channel_witness :
  CurrentChatId (app (world (onGetChannels [mkChannel 9 "bob"] (session 9 [] [])))) = 9.
Proof.
  destruct (onGetChannels_keeps_open_channel [mkChannel 9 "bob"] (session 9 [] []))
    as (A & _); [discriminate | exact A].
Defined.

(** ** Selecting a channel *)

Lemma lookupTitle_consistent (l : list Channel) (title : string) (id : Z) :
  (forall c, In c l -> Title c = title -> ChanId c = id) ->
  (exists c, In c l /\ Title c = title) ->
  lookupTitle l title = Some id.
Proof.
  induction l as [|x l IH]; intros Hall (c & Hin & Ht); [destruct Hin|]. cbn.
  destruct (String.eqb_spec (Title x) title) as [E|N].
  - f_equal. apply Hall; [left; reflexivity | exact E].
  - apply IH.
    + intros c' Hc'. apply Hall. right. exact Hc'.
    + destruct Hin as [<- | Hin]; [contradiction|]. exists c. auto.
Qed.

(** Selecting an option that is not the selected one opens the channel its
    title resolves to. *)
Lemma radioSetSelected_opens (option : string) (w : World) :
  Selected (ChannelsRadioGroup (app w)) <> option ->
  let r := radioSetSelected option w in
  CurrentChatId (app (world r)) = getChannelId option (app w) /\
  Selected (ChannelsRadioGroup (app (world r))) = option /\
  emits (effects r) =
    (if Connected (app w) && LoggedIn (app w)
     then [Emit "/get-messages"
                (MessagesRequest (getChannelId option (app w)) (CurrentUser (app w)))]
     else []).
Proof.
  intro Hsel.
  unfold radioSetSelected, radioOnChanged, openChannel, loadMessages, emit,
    getChannelId, bind, getApp, modifyApp, perform, ret.
  cbn. destruct (String.eqb_spec (Selected (ChannelsRadioGroup (app w))) option);
    [contradiction|].
  cbn. destruct (Connected (app w)), (LoggedIn (app w)); cbn; repeat split.
Qed.

(** The world [openChannelByUser] selects the user's name in, for a user
    other than the viewer. *)
Lemma ensureChannel_run (user : UserPublicInfo) (w : World) :
  let r :=
    when (negb (isChannelInList (PubId user) (app w)))
         (radioAppend (PubUsername user) ;;
          modifyApp (fun a =>
            setChannels
              (Channels a ++ [mkChannel (PubId user) (PubUsername user)]) a)) w in
  emits (effects r) = [] /\
  Selected (ChannelsRadioGroup (app (world r)))
  = Selected (ChannelsRadioGroup (app w)) /\
  CurrentUser (app (world r)) = CurrentUser (app w) /\
  Connected (app (world r)) = Connected (app w) /\
  LoggedIn (app (world r)) = LoggedIn (app w) /\
  Channels (app (world r)) =
    (if isChannelInList (PubId user) (app w) then Channels (app w)
     else Channels (app w) ++ [mkChannel (PubId user) (PubUsername user)]).
Proof.
  cbn zeta. destruct (isChannelInList (PubId user) (app w)); cbn; repeat split.
Qed.

(** X20. Opening the channel of another user, whose name is not the
    selected option, in a directory that gives this user's id and name to
    the same channels, makes that user's channel the open one, selects the
    name, and requests the channel's messages exactly when the client is
    connected and logged in. *)
Theorem openChannelByUser_opens (user : UserPublicInfo) (w : World) :
  PubId user <> Id (CurrentUser (app w)) ->
  Selected (ChannelsRadioGroup (app w)) <> PubUsername user ->
  (forall c, In c (Channels (app w)) ->
             (Title c = PubUsername user <-> ChanId c = PubId user)) ->
  let r := openChannelByUser user w in
  CurrentChatId (app (world r)) = PubId user /\
  Selected (ChannelsRadioGroup (app (world r))) = PubUsername user /\
  emits (effects r) =
    (if Connected (app w) && LoggedIn (app w)
     then [Emit "/get-messages" (MessagesRequest (PubId user) (CurrentUser (app w)))]
     else []).
Proof.
  intros Hother Hsel Hdir. cbn zeta.
  unfold openChannelByUser. rewrite bind_run.
  change (result (getApp w)) with (app w). change (world (getApp w)) with w.
  change (effects (getApp w)) with (@nil Effect).
  destruct (Z.eqb_spec (PubId user) (Id (CurrentUser (app w)))); [contradiction|].
  rewrite world_mk, effects_mk, bind_run, world_mk, effects_mk.
  destruct (ensureChannel_run user w) as (E1 & S1 & U1 & C1 & L1 & D1).
  cbn zeta in E1, S1, U1, C1, L1, D1.
  match goal with
  | |- context [radioSetSelected ?t ?w1] =>
      set (w' := w1) in *;
      destruct (radioSetSelected_opens t w') as (A & B & C)
  end.
  { rewrite S1. exact Hsel. }
  cbn zeta in A, B, C.
  assert (G : getChannelId (PubUsername user) (app w') = PubId user).
  { unfold getChannelId. rewrite D1.
    rewrite (lookupTitle_consistent _ (PubUsername user) (PubId user));
      [reflexivity | |].
    - destruct (isChannelInList (PubId user) (app w)); intros c Hin Ht.
      + apply Hdir; assumption.
      + apply in_app_or in Hin as [Hin|[<- |[]]]; [apply Hdir; assumption | reflexivity].
    - destruct (isChannelInList (PubId user) (app w)) eqn:K.
      + apply isChannelInList_loop_In, in_map_iff in K as (c & Ec & Hin).
        exists c. split; [exact Hin | apply Hdir; assumption].
      + eexists. split; [apply in_or_app; right; left; reflexivity | reflexivity]. }
  rewrite A, B, G. split; [reflexivity|]. split; [reflexivity|].
  cbn [List.app]. unfold emits in *. rewrite filter_app, E1, C, G, C1, L1, U1.
  reflexivity.
Qed.

(** Witness of X20: viewer 7 opens the channel of user 11, carol. *)
Lemma openChannelByUser_opens_witness :
  CurrentChatId (app (world (openChannelByUser (mkUserPublicInfo 11 "carol")
                               (session 0 [mkChannel 9 "bob"] [])))) = 11.
Proof.
  destruct (openChannelByUser_opens (mkUserPublicInfo 11 "carol")
              (session 0 [mkChannel 9 "bob"] [])) as (A & _).
  - discriminate.
  - discriminate.
  - intros c [<- | []]. split; discriminate.
  - exact A.
Defined.

(** X21. A channel list pushed while the group channel is open, with no
    channel titled as the group and another option selected, selects the
    group entry: the group channel stays the open one and its messages are
    requested exactly when the client is connected and logged in. This is
    how the group channel gets loaded after a login. *)
Theorem onGetChannels_loads_group (channels : list Channel) (w : World) :
  CurrentChatId (app w) = GROUP_CHAT_ID ->
  Selected (ChannelsRadioGroup (app w)) <> GROUP_CHANNEL_TITLE ->
  (forall c, In c channels -> Title c <> GROUP_CHANNEL_TITLE) ->
  let r := onGetChannels channels w in
  CurrentChatId (app (world r)) = GROUP_CHAT_ID /\
  Selected (ChannelsRadioGroup (app (world r))) = GROUP_CHANNEL_TITLE /\
  emits (effects r) =
    (if Connected (app w) && LoggedIn (app w)
     then [Emit "/get-messages" (MessagesRequest GROUP_CHAT_ID (CurrentUser (app w)))]
     else []).
Proof.
  intros Hgroup Hsel Hno. cbn zeta.
  unfold onGetChannels. rewrite !bind_run, !world_mk, !effects_mk.
  set (w1 := world (refreshChannelList (world (modifyApp (setChannels channels) w)))).
  change (world (getApp w1)) with w1. change (result (getApp w1)) with (app w1).
  change (effects (getApp w1)) with (@nil Effect).
  change (CurrentChatId (app w1)) with (CurrentChatId (app w)).
  rewrite Hgroup, Z.eqb_refl. cbn [when].
  destruct (radioSetSelected_opens GROUP_CHANNEL_TITLE w1 Hsel) as (A & B & C).
  cbn zeta in A, B, C.
  assert (G : getChannelId GROUP_CHANNEL_TITLE (app w1) = GROUP_CHAT_ID).
  { unfold getChannelId.
    change (Channels (app w1)) with channels.
    rewrite (lookupTitle_none _ _ Hno). reflexivity. }
  rewrite A, B, G. split; [reflexivity|]. split; [reflexivity|].
  unfold emits in *. rewrite !filter_app, C, G. reflexivity.
Qed.

(** Witness of X21: user 7 logs in on a connected client whose selector
    has nothing selected, then receives the list [bob]. *)
Lemma onGetChannels_loads_group_witness :
  let w1 := world (onLogin viewer7
                     (world (connect DEFAULT_HOST DEFAULT_PORT false (upAfter 0)))) in
  emits (effects (onGetChannels [mkChannel 9 "bob"] w1))
  = [Emit "/get-messages" (MessagesRequest GROUP_CHAT_ID viewer7)].
Proof.
  cbn zeta.
  destruct (onGetChannels_loads_group [mkChannel 9 "bob"]
              (world (onLogin viewer7
                 (world (connect DEFAULT_HOST DEFAULT_PORT false (upAfter 0))))))
    as (_ & _ & E).
  - reflexivity.
  - discriminate.
  - intros c [<- | []]. discriminate.
  - exact E.
Defined.

(** ** Credentials and the buttons *)

(** X22. Credentials leave the client only from a confirmed dialog on a
    connected client, as one "/login" (or "/register") event that carries
    the user name and the hash of the password; being logged in already
    plays no part. A cancelled dialog does nothing, and a confirmed one
    without a connection only shows an error. The Login and Register
    buttons open their dialog exactly when the client is connected. None
    of this changes the world. *)
Theorem credentials_need_connection `{PasswordHash}
        (confirmed : bool) (username password : string) (w : World) :
  let refused := [ShowError "You are not connected to the server."] in
  loginDialogClosed confirmed username password w =
    (tt, w,
     if confirmed then
       if Connected (app w)
       then [Emit "/login" (LoginData username (getPasswordHash password))]
       else refused
     else []) /\
  registerDialogClosed confirmed username password w =
    (tt, w,
     if confirmed then
       if Connected (app w)
       then [Emit "/register" (LoginData username (getPasswordHash password))]
       else refused
     else []) /\
  loginTapped w =
    (tt, w, if Connected (app w) then [ShowLoginDialog "Login"] else refused) /\
  registerTapped w =
    (tt, w, if Connected (app w) then [ShowRegisterDialog "Register"] else refused).
Proof.
  unfold loginDialogClosed, registerDialogClosed, sendLoginData, sendRegisterData,
    loginTapped, registerTapped, showLoginDialog, showRegisterDialog, emit,
    showError, bind, getApp, perform, ret.
  destruct confirmed, (Connected (app w)); repeat split.
Qed.

(** X23. The Send button sends nothing and shows nothing when the entry is
    empty, even without a connection. With a text it runs [sendMessage] on
    it, and the entry is left empty afterwards whether the message was
    emitted or refused. *)
Theorem sendTapped_clears_entry (inputText : string) (w : World) :
  result (sendTapped inputText w) = EmptyString /\
  world (sendTapped inputText w) = w /\
  effects (sendTapped inputText w) =
    (if (inputText =? EmptyString)%string then []
     else effects (sendMessage inputText w)).
Proof.
  unfold sendTapped.
  destruct (String.eqb_spec inputText EmptyString) as [-> | N]; cbn [negb].
  - repeat split.
  - rewrite bind_run, result_mk, world_mk, effects_mk.
    unfold sendMessage, emit, showError, bind, getApp, perform, ret. cbn.
    destruct (Connected (app w)), (LoggedIn (app w)); cbn; repeat split.
Qed.

(** ** The earlier revision of [connect] *)

(** X24. The earlier revision of [connect] never starts a retry loop: a
    failing dial, like a failing lifecycle registration, is shown once and
    the application record is left as it was. When it connects it logs in
    at once, emitting one "/login" event right after registering its
    handlers. *)
Theorem connect_earlier_outcome (w : World) :
  let r := connect_earlier w in
  let o := network w (dialed w) in
  result r = connectSucceeds o /\
  spawnCount (effects r) = 0%nat /\
  dialCount (effects r) = 1%nat /\
  notifications (effects r) =
    match o with
    | DialFails err => [ShowError err]
    | DialOk (Some err) _ => [ShowError err]
    | DialOk None (Some err) => [ShowError err]
    | DialOk None None => []
    end /\
  emits (effects r) =
    (if result r
     then [Emit "/login" (LoginData "vadim" "65ded5353c5ee48d0b7d48c591b8f430")]
     else []) /\
  app (world r) =
    (if result r
     then setConnected true (setClient (Some (dialed w)) (app w))
     else app w).
Proof.
  unfold connect_earlier, bind, dial, emit, perform, showError, ret. cbn.
  destruct (network w (dialed w)) as [err|[e1|] [e2|]]; cbn; repeat split.
Qed.
